(** * sol-wallet-adapter: the session manager of [src/index.js]

    A shallow embedding of the [Wallet] class: the constructor, the inbound
    message handler, the connect / disconnect handlers, the request
    correlator, and the public [connect] / [disconnect] / [sign] operations.

    JavaScript values are a small inductive type, the [Map] of pending
    requests is an insertion-ordered association list, the mutable fields of
    [this] together with the ambient browser objects form one record that is
    threaded through a state-and-exception monad, and every call that leaves
    the class (DOM listeners, [postMessage], [emit], promise continuations)
    is appended to a log. The listeners of the host application and the
    reactions of promises are outside the class: an [emit] or a call of
    [resolve] / [reject] is one entry of the log and does not re-enter the
    session. *)

From Stdlib Require Import ZArith List String Ascii Bool Lia.
Import ListNotations.
Local Open Scope string_scope.
Local Open Scope Z_scope.
Local Set Warnings "-register-all".

(** ** JavaScript values *)

Inductive JsVal : Type :=
| JUndefined
| JNull
| JBool (b : bool)
| JNum (n : Z)
| JStr (s : string)
| JObj (props : list (string * JsVal))
| JArr (items : list JsVal)
| JBytes (bytes : list Z).

(** [typeof v] *)
Definition js_typeof (v : JsVal) : string :=
  match v with
  | JUndefined => "undefined"
  | JNull => "object"
  | JBool _ => "boolean"
  | JNum _ => "number"
  | JStr _ => "string"
  | JObj _ | JArr _ | JBytes _ => "object"
  end.

(** ToBoolean: what [if (v)], [!v] and [a || b] test. *)
Definition truthy (v : JsVal) : bool :=
  match v with
  | JUndefined | JNull => false
  | JBool b => b
  | JNum n => negb (n =? 0)
  | JStr s => negb (s =? "")%string
  | JObj _ | JArr _ | JBytes _ => true
  end.

(** What can be thrown, or handed to a [reject] continuation. *)
Inductive Reason : Type :=
| RTypeError
| RInvalidKey
| RError (msg : JsVal)
| RString (s : string).

Inductive Res (A : Type) : Type :=
| Ret (a : A)
| Thr (r : Reason).
Arguments Ret {A} a.
Arguments Thr {A} r.

(** Insertion-ordered association lists: JavaScript objects and [Map]. *)
Section Assoc.
Context {K V : Type} (eqb : K -> K -> bool).

Fixpoint alookup (k : K) (m : list (K * V)) : option V :=
  match m with
  | [] => None
  | (k', v) :: m' => if eqb k k' then Some v else alookup k m'
  end.

Definition ahas (k : K) (m : list (K * V)) : bool :=
  match alookup k m with Some _ => true | None => false end.

(** [set]: an existing key keeps its place, a new key goes last. *)
Fixpoint aset (k : K) (v : V) (m : list (K * V)) : list (K * V) :=
  match m with
  | [] => [(k, v)]
  | (k', v') :: m' =>
      if eqb k k' then (k', v) :: m' else (k', v') :: aset k v m'
  end.

Definition adelete (k : K) (m : list (K * V)) : list (K * V) :=
  filter (fun kv => negb (eqb k (fst kv))) m.
End Assoc.

(** [v.k] for the protocol's field names ([isRN], [method], [params],
    [publicKey], [autoApprove], [id], [result], [error]); none of them is a
    built-in property of a primitive, an array or a typed array. *)
Definition js_get (v : JsVal) (k : string) : Res JsVal :=
  match v with
  | JUndefined | JNull => Thr RTypeError
  | JObj props =>
      Ret (match alookup String.eqb k props with
           | Some x => x
           | None => JUndefined
           end)
  | _ => Ret JUndefined
  end.

(** [v === 'lit'] *)
Definition js_is_str (v : JsVal) (lit : string) : bool :=
  match v with
  | JStr s => (s =? lit)%string
  | _ => false
  end.

(** [{ ...a, ...b }] on property lists. *)
Definition obj_spread (a b : list (string * JsVal)) : list (string * JsVal) :=
  fold_left (fun acc kv => aset String.eqb (fst kv) (snd kv) acc) b a.

(** ** URLs *)

(** A parsed URL: [url_base] is the serialized scheme, credentials, host and
    port; [url_origin] is what the [origin] getter returns. *)
Record URL : Type := mkURL {
  url_base : string;
  url_origin : string;
  url_path : string;
  url_query : option string;
  url_fragment : option string
}.

Definition hex_digit (n : N) : ascii :=
  ascii_of_N (if (n <? 10)%N then 48 + n else 55 + n)%N.

(** [%XX], upper-case hexadecimal. *)
Definition percent_encode_byte (c : ascii) : string :=
  let n := N_of_ascii c in
  String "%" (String (hex_digit (n / 16)) (String (hex_digit (n mod 16)) "")).

Definition is_alnum (c : ascii) : bool :=
  let n := N_of_ascii c in
  ((48 <=? n) && (n <=? 57) || (65 <=? n) && (n <=? 90)
   || (97 <=? n) && (n <=? 122))%N.

(** Text is a [string] of bytes, the UTF-8 encoding the serializers work on.
    Bytes the application/x-www-form-urlencoded serializer leaves alone: *)
Definition urlencoded_safe (c : ascii) : bool :=
  is_alnum c || (c =? "*")%char || (c =? "-")%char || (c =? ".")%char
  || (c =? "_")%char.

Definition urlencode_byte (c : ascii) : string :=
  if (c =? " ")%char then "+"
  else if urlencoded_safe c then String c ""
  else percent_encode_byte c.

Fixpoint urlencode (s : string) : string :=
  match s with
  | EmptyString => ""
  | String c r => urlencode_byte c ++ urlencode r
  end.

(** [new URLSearchParams({...}).toString()] *)
Fixpoint URLSearchParams_toString (params : list (string * string)) : string :=
  match params with
  | [] => ""
  | [(k, v)] => urlencode k ++ "=" ++ urlencode v
  | (k, v) :: rest =>
      urlencode k ++ "=" ++ urlencode v ++ "&" ++ URLSearchParams_toString rest
  end.

(** The fragment percent-encode set: C0 controls, space, double quote,
    [<], [>], backquote, and everything above [~]. *)
Definition in_fragment_encode_set (c : ascii) : bool :=
  let n := N_of_ascii c in
  ((n <=? 31) || (126 <? n) || (n =? 32) || (n =? 34) || (n =? 60)
   || (n =? 62) || (n =? 96))%N.

Fixpoint fragment_encode (s : string) : string :=
  match s with
  | EmptyString => ""
  | String c r =>
      (if in_fragment_encode_set c then percent_encode_byte c
       else String c "") ++ fragment_encode r
  end.

Definition is_tab_or_newline (c : ascii) : bool :=
  let n := N_of_ascii c in ((n =? 9) || (n =? 10) || (n =? 13))%N.

Fixpoint strip_tab_newline (s : string) : string :=
  match s with
  | EmptyString => ""
  | String c r =>
      if is_tab_or_newline c then strip_tab_newline r
      else String c (strip_tab_newline r)
  end.

(** The [hash] setter. *)
Definition URL_set_hash (v : string) (u : URL) : URL :=
  match v with
  | EmptyString =>
      mkURL (url_base u) (url_origin u) (url_path u) (url_query u) None
  | String c r =>
      let input := if (c =? "#")%char then r else v in
      mkURL (url_base u) (url_origin u) (url_path u) (url_query u)
            (Some (fragment_encode (strip_tab_newline input)))
  end.

(** A byte the [hash] setter stores as it is: not a tab or newline, and
    outside the fragment percent-encode set. *)
Definition fragment_plain (c : ascii) : bool :=
  negb (in_fragment_encode_set c) && negb (is_tab_or_newline c).

Fixpoint string_forallb (f : ascii -> bool) (s : string) : bool :=
  match s with
  | EmptyString => true
  | String c r => f c && string_forallb f r
  end.

(** [toString()] / [href] *)
Definition URL_toString (u : URL) : string :=
  url_base u ++ url_path u
  ++ match url_query u with Some q => "?" ++ q | None => "" end
  ++ match url_fragment u with Some f => "#" ++ f | None => "" end.

(** ** Messages, events and the session record *)

(** [e.source]: the host page's own window, another window, or [null]. *)
Inductive Source : Type :=
| SrcNull
| SrcWindow
| SrcRef (h : nat).

Record MessageEvent : Type := mkMessageEvent {
  ev_data : JsVal;
  ev_origin : string;
  ev_source : Source
}.

(** The constructor's first argument: a non-null object (with or without a
    [postMessage] function), a string, or anything else. *)
Inductive Provider : Type :=
| ProvObject (h : nat) (postMessageIsFunction : bool)
| ProvString (s : string)
| ProvOther.

(** An outbound [{ jsonrpc: '2.0', id, method, params }]. *)
Record Request : Type := mkRequest {
  req_id : Z;
  req_method : string;
  req_params : JsVal
}.

Inductive Receiver : Type := RWindow | RDocument.

Definition Receiver_eqb (a b : Receiver) : bool :=
  match a, b with
  | RWindow, RWindow | RDocument, RDocument => true
  | _, _ => false
  end.

(** [2^53]: from there on [++] no longer changes a JavaScript number. *)
Definition MAX_EXACT : Z := 9007199254740992.

(** [++n] on a number holding an integer in [[-2^53, 2^53]]: exact below
    [2^53]; [2^53 + 1] is not representable and rounds back to [2^53]. *)
Definition js_incr (n : Z) : Z :=
  if n <? MAX_EXACT then n + 1 else n.

(** The collaborators that live outside the repository: the [PublicKey]
    class of the web3 library, [JSON.parse], the [URL] parser, and two facts
    about the page the code runs in ([window.location.origin] and the outcome
    of the user-agent test of [_handleConnect]). *)
Class Platform : Type := {
  PublicKey : Type;
  PublicKey_new : JsVal -> option PublicKey;
  PublicKey_equals : PublicKey -> PublicKey -> bool;
  JSON_parse : string -> option JsVal;
  URL_new : string -> option URL;
  location_origin : string;
  isUIWebView : bool
}.

Section Session.
Context `{Platform}.

(** Everything the class does to the outside world, in order. *)
Inductive Event : Type :=
| EvAddListener (r : Receiver) (type : string)
| EvRemoveListener (r : Receiver) (type : string)
| EvEmitConnect (pk : PublicKey)
| EvEmitDisconnect
| EvOnceConnect (p : nat)
| EvResolve (p : nat) (v : JsVal)
| EvReject (p : nat) (r : Reason)
| EvPostInjected (provider : nat) (msg : Request)
| EvPostPopup (popup : nat) (msg : Request) (targetOrigin : string)
| EvPopupFocus (popup : nat)
| EvPopupClose (popup : nat)
| EvSetWindowName (name : string)
| EvWindowOpen (url target features : string).

(** The fields of [this], then the ambient state: the listeners this
    session has on [window] and [document], the next fresh promise, and the
    log. [_responsePromises] maps a request id to the promise whose
    [resolve] / [reject] pair it stores. *)
Record Wallet : Type := mkWallet {
  _injectedProvider : option nat;
  _providerUrl : option URL;
  _network : string;
  _publicKey : option PublicKey;
  _autoApprove : bool;
  _popup : option nat;
  _handlerAdded : bool;
  _nextRequestId : Z;
  _responsePromises : list (Z * nat);
  listeners : list (Receiver * string);
  nextPromise : nat;
  log : list Event
}.

Definition set_publicKey (v : option PublicKey) (w : Wallet) : Wallet :=
  mkWallet (_injectedProvider w) (_providerUrl w) (_network w) v
    (_autoApprove w) (_popup w) (_handlerAdded w) (_nextRequestId w)
    (_responsePromises w) (listeners w) (nextPromise w) (log w).

Definition set_autoApprove (v : bool) (w : Wallet) : Wallet :=
  mkWallet (_injectedProvider w) (_providerUrl w) (_network w) (_publicKey w)
    v (_popup w) (_handlerAdded w) (_nextRequestId w)
    (_responsePromises w) (listeners w) (nextPromise w) (log w).

Definition set_popup (v : option nat) (w : Wallet) : Wallet :=
  mkWallet (_injectedProvider w) (_providerUrl w) (_network w) (_publicKey w)
    (_autoApprove w) v (_handlerAdded w) (_nextRequestId w)
    (_responsePromises w) (listeners w) (nextPromise w) (log w).

Definition set_handlerAdded (v : bool) (w : Wallet) : Wallet :=
  mkWallet (_injectedProvider w) (_providerUrl w) (_network w) (_publicKey w)
    (_autoApprove w) (_popup w) v (_nextRequestId w)
    (_responsePromises w) (listeners w) (nextPromise w) (log w).

Definition set_nextRequestId (v : Z) (w : Wallet) : Wallet :=
  mkWallet (_injectedProvider w) (_providerUrl w) (_network w) (_publicKey w)
    (_autoApprove w) (_popup w) (_handlerAdded w) v
    (_responsePromises w) (listeners w) (nextPromise w) (log w).

Definition set_responsePromises (v : list (Z * nat)) (w : Wallet) : Wallet :=
  mkWallet (_injectedProvider w) (_providerUrl w) (_network w) (_publicKey w)
    (_autoApprove w) (_popup w) (_handlerAdded w) (_nextRequestId w)
    v (listeners w) (nextPromise w) (log w).

Definition set_listeners (v : list (Receiver * string)) (w : Wallet) : Wallet :=
  mkWallet (_injectedProvider w) (_providerUrl w) (_network w) (_publicKey w)
    (_autoApprove w) (_popup w) (_handlerAdded w) (_nextRequestId w)
    (_responsePromises w) v (nextPromise w) (log w).

Definition set_nextPromise (v : nat) (w : Wallet) : Wallet :=
  mkWallet (_injectedProvider w) (_providerUrl w) (_network w) (_publicKey w)
    (_autoApprove w) (_popup w) (_handlerAdded w) (_nextRequestId w)
    (_responsePromises w) (listeners w) v (log w).

Definition set_log (v : list Event) (w : Wallet) : Wallet :=
  mkWallet (_injectedProvider w) (_providerUrl w) (_network w) (_publicKey w)
    (_autoApprove w) (_popup w) (_handlerAdded w) (_nextRequestId w)
    (_responsePromises w) (listeners w) (nextPromise w) v.

(** ** The state-and-exception monad *)

Definition M (A : Type) : Type := Wallet -> Res A * Wallet.

Definition ret {A} (a : A) : M A := fun w => (Ret a, w).

Definition bind {A B} (c : M A) (k : A -> M B) : M B :=
  fun w =>
    match c w with
    | (Ret a, w') => k a w'
    | (Thr r, w') => (Thr r, w')
    end.

Definition throw {A} (r : Reason) : M A := fun w => (Thr r, w).

Definition this : M Wallet := fun w => (Ret w, w).

Definition modify (f : Wallet -> Wallet) : M unit := fun w => (Ret tt, f w).

Definition lift {A} (r : Res A) : M A := fun w => (r, w).

Definition emit (e : Event) : M unit :=
  modify (fun w => set_log (log w ++ [e]) w).

Definition when (b : bool) (c : M unit) : M unit :=
  if b then c else ret tt.

Fixpoint forEach {A} (l : list A) (f : A -> M unit) : M unit :=
  match l with
  | [] => ret tt
  | x :: l' => bind (f x) (fun _ => forEach l' f)
  end.

Notation "x <- c ;; k" := (bind c (fun x => k))
  (at level 61, c at next level, right associativity).
Notation "c ;; k" := (bind c (fun _ => k))
  (at level 61, right associativity).

(** An [async] call whose promise nobody awaits: a rejection is dropped. *)
Definition unawaited {A} (c : M A) : M unit :=
  fun w => (Ret tt, snd (c w)).

(** [new Promise(...)]: a fresh promise handle. *)
Definition new_promise : M nat :=
  fun w => (Ret (nextPromise w), set_nextPromise (S (nextPromise w)) w).

Definition has_listener (r : Receiver) (type : string)
    (l : list (Receiver * string)) : bool :=
  existsb (fun x => Receiver_eqb r (fst x) && (type =? snd x)%string) l.

(** [r.addEventListener(type, f)] for one of the two bound functions of
    this session; adding a listener that is already there changes nothing. *)
Definition addEventListener (r : Receiver) (type : string) : M unit :=
  emit (EvAddListener r type) ;;
  modify (fun w =>
    set_listeners
      (if has_listener r type (listeners w) then listeners w
       else listeners w ++ [(r, type)]) w).

Definition removeEventListener (r : Receiver) (type : string) : M unit :=
  emit (EvRemoveListener r type) ;;
  modify (fun w =>
    set_listeners
      (filter (fun x => negb (Receiver_eqb r (fst x) && (type =? snd x)%string))
              (listeners w)) w).

(** ** The class *)

Definition isObject (a : Provider) : bool :=
  match a with ProvObject _ _ => true | _ => false end.

Definition isInjectedProvider (a : Provider) : bool :=
  isObject a && match a with ProvObject _ f => f | _ => false end.

Definition isString (a : Provider) : bool :=
  match a with ProvString _ => true | _ => false end.

Definition fresh_wallet (injected : option nat) (url : option URL)
    (network : string) : Wallet :=
  mkWallet injected url network None false None false 1 [] [] 0%nat [].

Definition Wallet_constructor (provider : Provider) (network : string)
    : Res Wallet :=
  match provider with
  | ProvObject h _ =>
      if isInjectedProvider provider
      then Ret (fresh_wallet (Some h) None network)
      else Thr (RError (JStr
             "provider parameter must be an injected provider or a URL string."))
  | ProvString s =>
      match URL_new s with
      | None => Thr RTypeError
      | Some u =>
          Ret (fresh_wallet None
                 (Some (URL_set_hash
                          (URLSearchParams_toString
                             [("origin", location_origin); ("network", network)])
                          u))
                 network)
      end
  | ProvOther =>
      Thr (RError (JStr
             "provider parameter must be an injected provider or a URL string."))
  end.

(** [get connected()] *)
Definition connected (w : Wallet) : bool :=
  match _publicKey w with Some _ => true | None => false end.

(** [_handleDisconnect]. The [forEach] callback deletes the entry it is
    visiting and nothing else, so visiting the entries of the table as it is
    when the loop starts is what the live iteration does. *)
Definition _handleDisconnect : M unit :=
  w <- this ;;
  when (_handlerAdded w)
    (modify (set_handlerAdded false) ;;
     removeEventListener RWindow "message" ;;
     removeEventListener RWindow "beforeunload") ;;
  w <- this ;;
  when (connected w)
    (modify (set_publicKey None) ;;
     emit EvEmitDisconnect) ;;
  w <- this ;;
  forEach (_responsePromises w) (fun entry =>
    modify (fun w =>
      set_responsePromises
        (adelete Z.eqb (fst entry) (_responsePromises w)) w) ;;
    emit (EvReject (snd entry) (RString "Wallet disconnected"))).

(** [_sendRequest]: [Thr] is the rejection of the async function itself,
    [Ret p] the promise it hands back. An exception inside the promise
    executor ([this._popup] is null) rejects that promise. *)
Definition _sendRequest (method : string) (params : list (string * JsVal))
    : M nat :=
  w <- this ;;
  if negb (method =? "connect")%string && negb (connected w)
  then throw (RError (JStr "Wallet not connected"))
  else
    let requestId := _nextRequestId w in
    modify (set_nextRequestId (js_incr requestId)) ;;
    p <- new_promise ;;
    modify (fun w =>
      set_responsePromises (aset Z.eqb requestId p (_responsePromises w)) w) ;;
    match _injectedProvider w with
    | Some provider =>
        emit (EvPostInjected provider
                (mkRequest requestId method
                   (JObj (obj_spread [("network", JStr (_network w))] params))))
    | None =>
        match _popup w, _providerUrl w with
        | Some popup, Some url =>
            emit (EvPostPopup popup
                    (mkRequest requestId method (JObj params))
                    (url_origin url)) ;;
            when (negb (_autoApprove w)) (emit (EvPopupFocus popup))
        | _, _ => emit (EvReject p RTypeError)
        end
    end ;;
    ret p.

(** [_handleConnect]; [opened] is what [window.open] returns. *)
Definition _handleConnect (opened : option nat) : M nat :=
  w <- this ;;
  when (negb (_handlerAdded w))
    (modify (set_handlerAdded true) ;;
     let receiver := if isUIWebView then RWindow else RDocument in
     addEventListener receiver "message" ;;
     addEventListener receiver "beforeunload") ;;
  match _injectedProvider w with
  | Some _ =>
      p <- new_promise ;;
      unawaited (_sendRequest "connect" []) ;;
      emit (EvResolve p JUndefined) ;;
      ret p
  | None =>
      emit (EvSetWindowName "parent") ;;
      url <- match _providerUrl w with
             | Some u => ret (URL_toString u)
             | None => throw RTypeError
             end ;;
      emit (EvWindowOpen url "_blank"
              "location,resizable,width=460,height=675") ;;
      modify (set_popup opened) ;;
      p <- new_promise ;;
      emit (EvOnceConnect p) ;;
      ret p
  end.

Definition close_popup : M unit :=
  w <- this ;;
  match _popup w with
  | Some popup => emit (EvPopupClose popup)
  | None => ret tt
  end.

Definition connect (opened : option nat) : M nat :=
  close_popup ;;
  _handleConnect opened.

(** [sign], up to the point where it awaits the reply. *)
Definition sign (data display : JsVal) : M nat :=
  match data with
  | JBytes _ => _sendRequest "sign" [("data", data); ("display", display)]
  | _ => throw (RError (JStr "Data must be an instance of Uint8Array"))
  end.

(** The payload after the [typeof e.data === 'string'] block: text that
    parses is replaced by its parse, text that does not parse stays. *)
Definition parse_data (d : JsVal) : JsVal :=
  match d with
  | JStr s => match JSON_parse s with Some v => v | None => d end
  | _ => d
  end.

(** [e.source === this._popup] *)
Definition source_is_popup (s : Source) (popup : option nat) : bool :=
  match s, popup with
  | SrcNull, None => true
  | SrcRef h, Some h' => Nat.eqb h h'
  | _, _ => false
  end.

Definition source_is_window (s : Source) : bool :=
  match s with SrcWindow => true | _ => false end.

(** [typeof data === 'object' && data.isRN] *)
Definition tagged_isRN (data : JsVal) : M bool :=
  if (js_typeof data =? "object")%string
  then (v <- lift (js_get data "isRN") ;; ret (truthy v))
  else ret false.

(** The condition of the outer [if] of [_handleMessage], with the
    left-to-right short-circuit evaluation of [||] and [&&]. *)
Definition admitted (e : MessageEvent) (data : JsVal) : M bool :=
  w <- this ;;
  rn <- tagged_isRN data ;;
  if rn then ret true
  else if match _injectedProvider w with Some _ => true | None => false end
          && source_is_window (ev_source e)
  then ret true
  else
    match _providerUrl w with
    | None => throw RTypeError
    | Some url =>
        ret ((ev_origin e =? url_origin url)%string
             && source_is_popup (ev_source e) (_popup w))
    end.

(** [this._responsePromises.has(id)] / [.get(id)]: the keys are numbers. *)
Definition pending_lookup (id : JsVal) (w : Wallet) : option nat :=
  match id with
  | JNum n => alookup Z.eqb n (_responsePromises w)
  | _ => None
  end.

Definition on_connected (data : JsVal) : M unit :=
  params <- lift (js_get data "params") ;;
  key <- lift (js_get params "publicKey") ;;
  newPublicKey <- match PublicKey_new key with
                  | Some pk => ret pk
                  | None => throw RInvalidKey
                  end ;;
  w <- this ;;
  let differs := match _publicKey w with
                 | Some pk => negb (PublicKey_equals pk newPublicKey)
                 | None => false
                 end in
  if negb (connected w) || differs then
    when differs _handleDisconnect ;;
    modify (set_publicKey (Some newPublicKey)) ;;
    autoApprove <- lift (js_get params "autoApprove") ;;
    modify (set_autoApprove (truthy autoApprove)) ;;
    emit (EvEmitConnect newPublicKey)
  else ret tt.

Definition on_response (data : JsVal) : M unit :=
  result <- lift (js_get data "result") ;;
  error <- lift (js_get data "error") ;;
  if truthy result || truthy error then
    id <- lift (js_get data "id") ;;
    w <- this ;;
    match pending_lookup id w with
    | Some p =>
        if truthy result then emit (EvResolve p result)
        else emit (EvReject p (RError error))
    | None => ret tt
    end
  else ret tt.

Definition _handleMessage (e : MessageEvent) : M unit :=
  let data := parse_data (ev_data e) in
  ok <- admitted e data ;;
  if ok then
    method <- lift (js_get data "method") ;;
    if js_is_str method "connected" then on_connected data
    else if js_is_str method "disconnected" then _handleDisconnect
    else on_response data
  else ret tt.

(** ** [disconnect], an async function with one [await] *)

Inductive Async : Type :=
| Fulfilled
| Rejected (r : Reason)
| Awaiting (p : nat).

(** How promise [p] was settled: the first call of one of its two
    continuations; later calls do nothing to a promise. *)
Fixpoint settlement (p : nat) (l : list Event) : option (Res JsVal) :=
  match l with
  | [] => None
  | EvResolve q v :: l' => if Nat.eqb q p then Some (Ret v) else settlement p l'
  | EvReject q r :: l' => if Nat.eqb q p then Some (Thr r) else settlement p l'
  | _ :: l' => settlement p l'
  end.

(** What follows the [await]. *)
Definition disconnect_teardown : M unit :=
  close_popup ;;
  _handleDisconnect.

(** The call, up to its end or to the [await]. *)
Definition disconnect (w : Wallet) : Async * Wallet :=
  match _injectedProvider w with
  | Some _ =>
      match _sendRequest "disconnect" [] w with
      | (Ret p, w') => (Awaiting p, w')
      | (Thr r, w') => (Rejected r, w')
      end
  | None => (Fulfilled, snd (disconnect_teardown w))
  end.

(** The suspended call looks at the awaited promise again: still pending,
    fulfilled (the rest of the body runs), or rejected (the [await] throws
    and the rest of the body is skipped). *)
Definition disconnect_resume (p : nat) (w : Wallet) : Async * Wallet :=
  match settlement p (log w) with
  | None => (Awaiting p, w)
  | Some (Ret _) => (Fulfilled, snd (disconnect_teardown w))
  | Some (Thr r) => (Rejected r, w)
  end.

End Session.

(** ** Vocabulary of the properties *)

Section Vocabulary.
Context `{Platform}.

(** Delivering a sequence of window messages to the handler. *)
Definition deliver (es : list MessageEvent) (w : Wallet) : Wallet :=
  fold_left (fun w e => snd (_handleMessage e w)) es w.

(** The message passes the outer [if] of [_handleMessage]. *)
Definition is_admitted (e : MessageEvent) (w : Wallet) : Prop :=
  fst (admitted e (parse_data (ev_data e)) w) = Ret true.

(** The payload is an object tagged [isRN]. *)
Definition tagged (e : MessageEvent) (w : Wallet) : Prop :=
  fst (tagged_isRN (parse_data (ev_data e)) w) = Ret true.

(** An admitted [connected] notification whose key decodes to [pk]. *)
Definition connected_notification (e : MessageEvent) (pk : PublicKey)
    (w : Wallet) : Prop :=
  is_admitted e w
  /\ js_get (parse_data (ev_data e)) "method" = Ret (JStr "connected")
  /\ exists params key,
       js_get (parse_data (ev_data e)) "params" = Ret params
       /\ js_get params "publicKey" = Ret key
       /\ PublicKey_new key = Some pk.

(** An admitted message that is neither notification, with its three
    response fields. *)
Definition response_message (e : MessageEvent) (id result error : JsVal)
    (w : Wallet) : Prop :=
  is_admitted e w
  /\ (exists m, js_get (parse_data (ev_data e)) "method" = Ret m
                /\ js_is_str m "connected" = false
                /\ js_is_str m "disconnected" = false)
  /\ js_get (parse_data (ev_data e)) "id" = Ret id
  /\ js_get (parse_data (ev_data e)) "result" = Ret result
  /\ js_get (parse_data (ev_data e)) "error" = Ret error.

(** The [connect] / [disconnect] events the host application observes. *)
Definition emitted (l : list Event) : list Event :=
  filter (fun ev => match ev with
                    | EvEmitConnect _ | EvEmitDisconnect => true
                    | _ => false
                    end) l.

Definition is_post (ev : Event) : bool :=
  match ev with
  | EvPostInjected _ _ | EvPostPopup _ _ _ => true
  | _ => false
  end.

(** The request id a posted message carries. *)
Definition post_id (ev : Event) : option Z :=
  match ev with
  | EvPostInjected _ msg | EvPostPopup _ msg _ => Some (req_id msg)
  | _ => None
  end.

Definition is_add_listener (ev : Event) : bool :=
  match ev with EvAddListener _ _ => true | _ => false end.

(** The forced rejections of a disconnect, one per table entry, in order. *)
Definition rejections (table : list (Z * nat)) : list Event :=
  map (fun entry => EvReject (snd entry) (RString "Wallet disconnected")) table.

(** The query component holds the two parameters as its last two pairs. *)
Definition carries_in_query (u : URL) (origin network : string) : Prop :=
  exists q pre,
    url_query u = Some q
    /\ q = pre ++ URLSearchParams_toString
                    [("origin", origin); ("network", network)].

(** What the session can be asked to do, and one run of each. *)
Inductive Op : Type :=
| OpConnect (opened : option nat)
| OpDisconnect
| OpResume (p : nat)
| OpMessage (e : MessageEvent)
| OpSend (method : string) (params : list (string * JsVal))
| OpSign (data display : JsVal).

Definition step (op : Op) (w : Wallet) : Wallet :=
  match op with
  | OpConnect opened => snd (connect opened w)
  | OpDisconnect => snd (disconnect w)
  | OpResume p => snd (disconnect_resume p w)
  | OpMessage e => snd (_handleMessage e w)
  | OpSend method params => snd (_sendRequest method params w)
  | OpSign data display => snd (sign data display w)
  end.

Definition run (ops : list Op) (w : Wallet) : Wallet :=
  fold_left (fun w op => step op w) ops w.

Definition not_listener (r : Receiver) (type : string)
    (x : Receiver * string) : bool :=
  negb (Receiver_eqb r (fst x) && (type =? snd x)%string).

(** [_handleDisconnect] in closed form (lemma [handleDisconnect_spec]). *)
Definition after_disconnect (w : Wallet) : Wallet :=
  mkWallet (_injectedProvider w) (_providerUrl w) (_network w) None
    (_autoApprove w) (_popup w) false (_nextRequestId w) []
    (if _handlerAdded w
     then filter (not_listener RWindow "beforeunload")
            (filter (not_listener RWindow "message") (listeners w))
     else listeners w)
    (nextPromise w)
    (log w
     ++ (if _handlerAdded w
         then [EvRemoveListener RWindow "message";
               EvRemoveListener RWindow "beforeunload"]
         else [])
     ++ (if connected w then [EvEmitDisconnect] else [])
     ++ rejections (_responsePromises w)).

(** Request ids stay within the exact range, and below the counter until
    the counter reaches [2^53]. *)
Definition ids_ok (w : Wallet) : Prop :=
  1 <= _nextRequestId w <= MAX_EXACT
  /\ Forall (fun entry =>
               fst entry < _nextRequestId w \/ _nextRequestId w = MAX_EXACT)
            (_responsePromises w).

(** What every operation guarantees about the counter and the fixed part of
    the session: the counter does not go down, [ids_ok] is kept, and the
    provider, URL and network stay what the constructor made them. *)
Definition advances (w w' : Wallet) : Prop :=
  _nextRequestId w <= _nextRequestId w'
  /\ (ids_ok w -> ids_ok w')
  /\ _injectedProvider w' = _injectedProvider w
  /\ _providerUrl w' = _providerUrl w
  /\ _network w' = _network w.

Definition steady {A : Type} (c : M A) : Prop :=
  forall w, advances w (snd (c w)).

(** One more [connect] request, whatever the state. *)
Definition send_connect (w : Wallet) : Wallet :=
  snd (_sendRequest "connect" [] w).

End Vocabulary.

(** ** The rest of the class, and the vocabulary of its properties *)

(** The inverse of the serializer of [URLSearchParams] on one name or
    value: [+] is a space, [%XX] is the byte [XX]. *)
Definition unhex (c : ascii) : option N :=
  let n := N_of_ascii c in
  if ((48 <=? n) && (n <=? 57))%N then Some (n - 48)%N
  else if ((65 <=? n) && (n <=? 70))%N then Some (n - 55)%N
  else if ((97 <=? n) && (n <=? 102))%N then Some (n - 87)%N
  else None.

Fixpoint urldecode (s : string) : string :=
  match s with
  | EmptyString => EmptyString
  | String c r =>
      if (c =? "+")%char then String " " (urldecode r)
      else if (c =? "%")%char then
        match r with
        | String h (String l r') =>
            match unhex h, unhex l with
            | Some a, Some b => String (ascii_of_N (16 * a + b)) (urldecode r')
            | _, _ => String c (urldecode r)
            end
        | _ => String c (urldecode r)
        end
      else String c (urldecode r)
  end.

Fixpoint string_mem (c : ascii) (s : string) : bool :=
  match s with
  | EmptyString => false
  | String c' r => (c =? c')%char || string_mem c r
  end.

Section MoreVocabulary.
Context `{Platform}.

Notation "x <- c ;; k" := (bind c (fun x => k))
  (at level 61, c at next level, right associativity).
Notation "c ;; k" := (bind c (fun _ => k))
  (at level 61, right associativity).

(** [signTransaction] and [signAllTransactions], up to the point where they
    await the reply. [message] is the text
    [bs58.encode(transaction.serializeMessage())], which the two libraries
    compute before [_sendRequest] is called. *)
Definition signTransaction (message : string) : M nat :=
  _sendRequest "signTransaction" [("message", JStr message)].

Definition signAllTransactions (messages : list string) : M nat :=
  _sendRequest "signAllTransactions" [("messages", JArr (map JStr messages))].

(** [get publicKey()] and [get autoApprove()]. *)
Definition publicKey (w : Wallet) : option PublicKey := _publicKey w.

Definition autoApprove (w : Wallet) : bool := _autoApprove w.

Definition is_reject (ev : Event) : bool :=
  match ev with EvReject _ _ => true | _ => false end.

Definition is_settle (ev : Event) : bool :=
  match ev with EvResolve _ _ | EvReject _ _ => true | _ => false end.

(** The table is a map whose promises are distinct and already created. *)
Definition promises_ok (w : Wallet) : Prop :=
  Forall (fun entry => (snd entry < nextPromise w)%nat) (_responsePromises w)
  /\ NoDup (map snd (_responsePromises w))
  /\ NoDup (map fst (_responsePromises w)).

(** What every operation guarantees about the log and the promises: the
    log only grows, no promise handle is given out twice, and
    [promises_ok] is kept. *)
Definition grows (w w' : Wallet) : Prop :=
  (exists events, log w' = (log w ++ events)%list)
  /\ (nextPromise w <= nextPromise w')%nat
  /\ (promises_ok w -> promises_ok w').

Definition growing {A : Type} (c : M A) : Prop :=
  forall w, grows w (snd (c w)).

(** A change to fields other than the table and the promise counter that
    at most appends to the log. *)
Definition minor (w w' : Wallet) : Prop :=
  _responsePromises w' = _responsePromises w
  /\ nextPromise w' = nextPromise w
  /\ exists events, log w' = (log w ++ events)%list.

End MoreVocabulary.

(** ** A concrete page, for the examples *)

(** Keys are non-empty strings compared as text; no text parses as JSON;
    one provider URL parses. *)
Definition demo_platform : Platform := {|
  PublicKey := string;
  PublicKey_new := fun v =>
    match v with
    | JStr s => if (s =? "")%string then None else Some s
    | _ => None
    end;
  PublicKey_equals := String.eqb;
  JSON_parse := fun _ => None;
  URL_new := fun s =>
    if (s =? "https://www.sollet.io")%string
    then Some (mkURL "https://www.sollet.io" "https://www.sollet.io" "/"
                     None None)
    else None;
  location_origin := "https://app.example.org";
  isUIWebView := true
|}.

Definition demo_wallet (provider : Provider) : @Wallet demo_platform :=
  match @Wallet_constructor demo_platform provider "mainnet-beta" with
  | Ret w => w
  | Thr _ => fresh_wallet None None "mainnet-beta"
  end.

(** A session on an injected provider / on the provider URL. *)
Definition demo_injected : @Wallet demo_platform :=
  demo_wallet (ProvObject 7 true).

Definition demo_remote : @Wallet demo_platform :=
  demo_wallet (ProvString "https://www.sollet.io").

Definition connected_msg (key : string) : JsVal :=
  JObj [("method", JStr "connected");
        ("params", JObj [("publicKey", JStr key); ("autoApprove", JBool true)])].

(** The injected session after [connect()] and the provider's [connected]
    notification for key [alice]. *)
Definition demo_injected_connected : @Wallet demo_platform :=
  run [OpConnect None;
       OpMessage (mkMessageEvent (connected_msg "alice")
                    "https://app.example.org" SrcWindow)]
      demo_injected.

(** The remote session after [connect()] opened popup 3 and the popup's
    [connected] notification for key [alice]. *)
Definition demo_remote_connected : @Wallet demo_platform :=
  run [OpConnect (Some 3%nat);
       OpMessage (mkMessageEvent (connected_msg "alice")
                    "https://www.sollet.io" (SrcRef 3))]
      demo_remote.

(** The connected remote session with one [sign] request in flight
    (request id 1, promise 1), and how it got there. *)
Definition demo_remote_history : list Op :=
  [OpConnect (Some 3%nat);
   OpMessage (mkMessageEvent (connected_msg "alice")
                "https://www.sollet.io" (SrcRef 3));
   OpSign (JBytes [1; 2; 3]) (JBool true)].

Definition demo_remote_signing : @Wallet demo_platform :=
  run demo_remote_history demo_remote.

Definition sign_result : JsVal :=
  JObj [("signature", JStr "5VERv8"); ("publicKey", JStr "alice")].

(** The popup's answer to request 1. *)
Definition demo_reply : MessageEvent :=
  mkMessageEvent (JObj [("id", JNum 1); ("result", sign_result)])
    "https://www.sollet.io" (SrcRef 3).

(** Messages from another origin and another window, tagged [isRN]. *)
Definition foreign_connected : MessageEvent :=
  mkMessageEvent
    (JObj [("isRN", JBool true); ("method", JStr "connected");
           ("params", JObj [("publicKey", JStr "mallory")])])
    "https://evil.example" (SrcRef 9).

Definition foreign_reply : MessageEvent :=
  mkMessageEvent
    (JObj [("isRN", JBool true); ("id", JNum 1); ("result", JStr "forged")])
    "https://evil.example" (SrcRef 9).

(** The same notification without the tag. *)
Definition foreign_untagged : MessageEvent :=
  mkMessageEvent (connected_msg "mallory") "https://evil.example" (SrcRef 9).

(** The popup tells the remote session it has disconnected. *)
Definition popup_disconnected : MessageEvent :=
  mkMessageEvent (JObj [("method", JStr "disconnected")])
    "https://www.sollet.io" (SrcRef 3).

(** The injected provider announces a key / answers request 2 with an
    error. *)
Definition provider_connected (key : string) : MessageEvent :=
  mkMessageEvent (connected_msg key) "https://app.example.org" SrcWindow.

Definition provider_refuses : MessageEvent :=
  mkMessageEvent (JObj [("id", JNum 2); ("error", JStr "denied")])
    "https://app.example.org" SrcWindow.

Definition demo_url : URL :=
  mkURL "https://www.sollet.io" "https://www.sollet.io" "/" None
    (Some "origin=https%3A%2F%2Fapp.example.org&network=mainnet-beta").

(** The injected session after [connect()], before the provider has
    answered. *)
Definition demo_injected_connecting : @Wallet demo_platform :=
  run [OpConnect None] demo_injected.

(** A [connected] notification without params. *)
Definition provider_connected_bare : MessageEvent :=
  mkMessageEvent (JObj [("method", JStr "connected")])
    "https://app.example.org" SrcWindow.

(** The remote session with a [sign] and a [signTransaction] request in
    flight (ids 1 and 2, promises 1 and 2), and the popup refusing the
    second. *)
Definition demo_remote_two_history : list Op :=
  (demo_remote_history
   ++ [OpSend "signTransaction" [("message", JStr "3Bxs4Th")]])%list.

Definition demo_remote_two : @Wallet demo_platform :=
  run demo_remote_two_history demo_remote.

Definition demo_refusal : MessageEvent :=
  mkMessageEvent (JObj [("id", JNum 2); ("error", JStr "denied")])
    "https://www.sollet.io" (SrcRef 3).

(** A notification from the provider's origin, but from another window. *)
Definition other_window_connected : MessageEvent :=
  mkMessageEvent (connected_msg "mallory") "https://www.sollet.io" (SrcRef 9).

(** The same page with a JSON parser that knows one text. *)
Definition demo_platform_json : Platform := {|
  PublicKey := string;
  PublicKey_new := @PublicKey_new demo_platform;
  PublicKey_equals := String.eqb;
  JSON_parse := fun s =>
    if (s =? "{}")%string then Some (JObj []) else None;
  URL_new := @URL_new demo_platform;
  location_origin := "https://app.example.org";
  isUIWebView := true
|}.

Definition demo_sollet : URL :=
  mkURL "https://www.sollet.io" "https://www.sollet.io" "/" None None.

(** * Properties *)

Section Properties.
Context `{Platform}.

Notation "x <- c ;; k" := (bind c (fun x => k))
  (at level 61, c at next level, right associativity).
Notation "c ;; k" := (bind c (fun _ => k))
  (at level 61, right associativity).

Ltac unfold_monad :=
  unfold bind, ret, throw, this, modify, lift, emit, when, unawaited,
    new_promise in *.

(** ** The disconnect handler *)

Lemma wallet_eta (w : Wallet) :
  mkWallet (_injectedProvider w) (_providerUrl w) (_network w) (_publicKey w)
    (_autoApprove w) (_popup w) (_handlerAdded w) (_nextRequestId w)
    (_responsePromises w) (listeners w) (nextPromise w) (log w) = w.
Proof. destruct w; reflexivity. Qed.

Lemma adelete_in (k : Z) (table : list (Z * nat)) (entry : Z * nat) :
  In entry (adelete Z.eqb k table) -> In entry table /\ fst entry <> k.
Proof.
  unfold adelete. rewrite filter_In. intros [Hin Hne]. split; [exact Hin|].
  intros Heq. cbn in Hne. rewrite Heq, Z.eqb_refl in Hne. discriminate.
Qed.

(** The rejection sweep visits every entry of [l], empties a table whose
    keys all occur in [l], and logs one rejection per entry, in order. *)
Lemma reject_sweep (l : list (Z * nat)) : forall w : Wallet,
  (forall entry, In entry (_responsePromises w) -> In (fst entry) (map fst l)) ->
  forEach l (fun entry =>
    modify (fun w =>
      set_responsePromises
        (adelete Z.eqb (fst entry) (_responsePromises w)) w) ;;
    emit (EvReject (snd entry) (RString "Wallet disconnected"))) w
  = (Ret tt, set_responsePromises [] (set_log (log w ++ rejections l) w)).
Proof.
  induction l as [|[k p] l IH]; intros w Hkeys.
  - destruct w as [a b c d e f g h table i j lg]. cbn in *.
    destruct table as [|entry table].
    + unfold ret, set_responsePromises, set_log. cbn. now rewrite app_nil_r.
    + exfalso. exact (Hkeys entry (or_introl eq_refl)).
  - cbn [forEach]. unfold_monad. cbn.
    rewrite IH.
    + unfold set_responsePromises, set_log, rejections. cbn.
      now rewrite <- app_assoc.
    + cbn. intros entry Hin. apply adelete_in in Hin as [Hin Hne].
      destruct (Hkeys entry Hin) as [Heq|Hl]; [|exact Hl].
      cbn in Heq. congruence.
Qed.

Lemma handleDisconnect_spec (w : Wallet) :
  _handleDisconnect w = (Ret tt, after_disconnect w).
Proof.
  unfold _handleDisconnect.
  destruct w as [a b c pk e f added h table i j lg].
  destruct added, pk;
    cbv [bind this when modify emit removeEventListener connected ret
         set_handlerAdded set_publicKey set_log set_listeners
         _handlerAdded _publicKey _responsePromises log listeners
         _injectedProvider _providerUrl _network _autoApprove _popup
         _nextRequestId nextPromise];
    (rewrite reject_sweep;
     [|cbv [_responsePromises]; intros entry Hin; now apply in_map]);
    cbv [after_disconnect set_responsePromises set_log connected not_listener
         _handlerAdded _publicKey _responsePromises log listeners
         _injectedProvider _providerUrl _network _autoApprove _popup
         _nextRequestId nextPromise];
    rewrite <- ?app_assoc; reflexivity.
Qed.

(** ** The message handler *)

#[local] Arguments _handleDisconnect : simpl never.
#[local] Arguments emitted : simpl never.
#[local] Arguments rejections : simpl never.
#[local] Arguments has_listener : simpl never.

Lemma tagged_isRN_pure (d : JsVal) (w : Wallet) :
  tagged_isRN d w = (fst (tagged_isRN d w), w).
Proof.
  unfold tagged_isRN. unfold_monad.
  destruct (js_typeof d =? "object")%string; [|reflexivity].
  destruct (js_get d "isRN"); reflexivity.
Qed.

Lemma admitted_pure (e : MessageEvent) (d : JsVal) (w : Wallet) :
  admitted e d w = (fst (admitted e d w), w).
Proof.
  unfold admitted. unfold_monad. rewrite tagged_isRN_pure.
  destruct (fst (tagged_isRN d w)) as [[|]|]; cbn; try reflexivity.
  destruct (_ && _); [reflexivity|].
  destruct (_providerUrl w); reflexivity.
Qed.

Lemma handleMessage_admitted (e : MessageEvent) (w : Wallet) :
  is_admitted e w ->
  _handleMessage e w =
    (method <- lift (js_get (parse_data (ev_data e)) "method") ;;
     if js_is_str method "connected" then on_connected (parse_data (ev_data e))
     else if js_is_str method "disconnected" then _handleDisconnect
     else on_response (parse_data (ev_data e))) w.
Proof.
  unfold is_admitted, _handleMessage. intros Hadm.
  unfold bind at 1. rewrite admitted_pure, Hadm. reflexivity.
Qed.

Lemma handleMessage_not_admitted (e : MessageEvent) (w : Wallet) :
  fst (admitted e (parse_data (ev_data e)) w) <> Ret true ->
  snd (_handleMessage e w) = w.
Proof.
  unfold _handleMessage. intros Hadm.
  unfold bind at 1. rewrite admitted_pure.
  destruct (fst (admitted e (parse_data (ev_data e)) w)) as [[|]|];
    try reflexivity.
  now contradiction Hadm.
Qed.

Lemma emitted_app (l1 l2 : list Event) :
  emitted (l1 ++ l2) = (emitted l1 ++ emitted l2)%list.
Proof. apply filter_app. Qed.

Lemma emitted_rejections (table : list (Z * nat)) :
  emitted (rejections table) = [].
Proof.
  unfold rejections, emitted.
  induction table as [|entry table IH]; [reflexivity|exact IH].
Qed.

(** A [connected] notification for the identity the session already has
    changes nothing at all. *)
Lemma connected_same_identity (w : Wallet) (e : MessageEvent)
    (A B : PublicKey) :
  _publicKey w = Some A ->
  connected_notification e B w ->
  PublicKey_equals A B = true ->
  _handleMessage e w = (Ret tt, w).
Proof.
  intros HA (Hadm & Hm & params & key & Hp & Hk & Hnew) Heq.
  rewrite (handleMessage_admitted _ _ Hadm).
  unfold on_connected, connected. unfold_monad.
  rewrite Hm. cbn. rewrite Hp, Hk, Hnew, HA, Heq. reflexivity.
Qed.

(** The response branch never touches the table: the entry that was just
    settled is still there afterwards. *)
Lemma response_keeps_table (w : Wallet) (e : MessageEvent)
    (id result error : JsVal) :
  response_message e id result error w ->
  _responsePromises (snd (_handleMessage e w)) = _responsePromises w.
Proof.
  intros (Hadm & (m & Hm & Hc & Hd) & Hid & Hres & Herr).
  rewrite (handleMessage_admitted _ _ Hadm).
  unfold on_response, pending_lookup. unfold_monad.
  rewrite Hm, Hc, Hd, Hres, Herr. cbn.
  destruct (truthy result || truthy error); [|reflexivity].
  rewrite Hid.
  destruct id; try reflexivity.
  destruct (alookup Z.eqb n (_responsePromises w)); [|reflexivity].
  destruct (truthy result); reflexivity.
Qed.

(** ** The connection URL *)

Lemma string_forallb_app (f : ascii -> bool) (s t : string) :
  string_forallb f (s ++ t) = string_forallb f s && string_forallb f t.
Proof.
  induction s as [|c s IH]; [reflexivity|].
  cbn. now rewrite IH, andb_assoc.
Qed.

Lemma urlencode_byte_plain (c : ascii) :
  string_forallb fragment_plain (urlencode_byte c) = true.
Proof. destruct c as [[] [] [] [] [] [] [] []]; reflexivity. Qed.

(** Whatever the serializer of [URLSearchParams] writes for a name or a
    value passes through the [hash] setter untouched. *)
Lemma urlencode_plain (s : string) :
  string_forallb fragment_plain (urlencode s) = true.
Proof.
  induction s as [|c s IH]; [reflexivity|].
  cbn [urlencode]. now rewrite string_forallb_app, urlencode_byte_plain, IH.
Qed.

Lemma fragment_plain_fixed (s : string) :
  string_forallb fragment_plain s = true ->
  fragment_encode (strip_tab_newline s) = s.
Proof.
  induction s as [|c s IH]; [reflexivity|].
  cbn [string_forallb]. unfold fragment_plain at 1.
  intros Hs. apply andb_true_iff in Hs as [Hc Hs].
  apply andb_true_iff in Hc as [Hin Htab].
  apply negb_true_iff in Hin, Htab.
  cbn [strip_tab_newline]. rewrite Htab. cbn [fragment_encode].
  rewrite Hin, (IH Hs). reflexivity.
Qed.

Lemma URL_set_hash_plain (c : ascii) (r : string) (u : URL) :
  (c =? "#")%char = false ->
  string_forallb fragment_plain (String c r) = true ->
  URL_set_hash (String c r) u
  = mkURL (url_base u) (url_origin u) (url_path u) (url_query u)
          (Some (String c r)).
Proof.
  intros Hc Hplain. unfold URL_set_hash. rewrite Hc.
  now rewrite (fragment_plain_fixed _ Hplain).
Qed.

Lemma params_toString (origin network : string) :
  URLSearchParams_toString [("origin", origin); ("network", network)]
  = String "o" ("rigin=" ++ urlencode origin
                ++ "&network=" ++ urlencode network).
Proof. reflexivity. Qed.

(** ** The listener *)

Lemma has_listener_removed (r : Receiver) (type : string)
    (keep : Receiver * string -> bool) (l : list (Receiver * string)) :
  has_listener r type (filter keep (filter (not_listener r type) l)) = false.
Proof.
  unfold has_listener. apply not_true_is_false. intros Hex.
  apply existsb_exists in Hex as (x & Hin & Hx).
  apply filter_In in Hin as [Hin _]. apply filter_In in Hin as [_ Hnot].
  unfold not_listener in Hnot. rewrite Hx in Hnot. discriminate.
Qed.

Lemma has_listener_added (r : Receiver) (type : string)
    (l : list (Receiver * string)) :
  has_listener r type
    (if has_listener r type l then l else l ++ [(r, type)]) = true.
Proof.
  destruct (has_listener r type l) eqn:Hl; [exact Hl|].
  unfold has_listener. rewrite existsb_app. cbn.
  rewrite String.eqb_refl. destruct r; cbn; now rewrite orb_true_r.
Qed.

Lemma has_listener_kept (r : Receiver) (type type' : string)
    (l : list (Receiver * string)) :
  has_listener r type l = true ->
  has_listener r type
    (if has_listener r type' l then l else l ++ [(r, type')]) = true.
Proof.
  intros Hl. destruct (has_listener r type' l); [exact Hl|].
  unfold has_listener in *. rewrite existsb_app, Hl. reflexivity.
Qed.

(** ** The request counter *)

Lemma advances_refl (w : Wallet) : advances w w.
Proof.
  unfold advances. split; [lia|]. split; [tauto|]. repeat split.
Qed.

Lemma advances_trans (w1 w2 w3 : Wallet) :
  advances w1 w2 -> advances w2 w3 -> advances w1 w3.
Proof.
  unfold advances.
  intros (? & ? & ? & ? & ?) (? & ? & ? & ? & ?).
  split; [lia|]. split; [tauto|]. repeat split; congruence.
Qed.

(** A change that leaves counter, table and fixed part alone. *)
Lemma advances_frame (w w' : Wallet) :
  _nextRequestId w' = _nextRequestId w ->
  _responsePromises w' = _responsePromises w ->
  _injectedProvider w' = _injectedProvider w ->
  _providerUrl w' = _providerUrl w ->
  _network w' = _network w ->
  advances w w'.
Proof.
  intros Hc Ht Hi Hu Hn. unfold advances, ids_ok.
  rewrite Hc, Ht. split; [lia|]. split; [tauto|]. auto.
Qed.

Lemma steady_ret {A} (a : A) : steady (ret a).
Proof. intros w. apply advances_refl. Qed.

Lemma steady_throw {A} (r : Reason) : steady (@throw _ A r).
Proof. intros w. apply advances_refl. Qed.

Lemma steady_this : steady this.
Proof. intros w. apply advances_refl. Qed.

Lemma steady_lift {A} (r : Res A) : steady (lift r).
Proof. intros w. apply advances_refl. Qed.

Lemma steady_bind {A B} (c : M A) (k : A -> M B) :
  steady c -> (forall a, steady (k a)) -> steady (bind c k).
Proof.
  intros Hc Hk w. unfold bind. specialize (Hc w).
  destruct (c w) as [[a|r] w']; cbn in *; [|exact Hc].
  exact (advances_trans _ _ _ Hc (Hk a w')).
Qed.

Lemma steady_when (b : bool) (c : M unit) : steady c -> steady (when b c).
Proof. destruct b; [auto|]. intros _. apply steady_ret. Qed.

Lemma steady_unawaited {A} (c : M A) : steady c -> steady (unawaited c).
Proof. intros Hc w. exact (Hc w). Qed.

Lemma steady_forEach {A} (l : list A) (f : A -> M unit) :
  (forall x, steady (f x)) -> steady (forEach l f).
Proof.
  intros Hf. induction l as [|x l IH]; [apply steady_ret|].
  cbn. apply steady_bind; auto.
Qed.

Lemma steady_modify (f : Wallet -> Wallet) :
  (forall w, advances w (f w)) -> steady (modify f).
Proof. intros Hf w. exact (Hf w). Qed.

Lemma steady_emit (e : Event) : steady (emit e).
Proof. apply steady_modify. intros w. now apply advances_frame. Qed.

Lemma steady_new_promise : steady new_promise.
Proof. intros w. now apply advances_frame. Qed.

Lemma steady_addEventListener (r : Receiver) (type : string) :
  steady (addEventListener r type).
Proof.
  unfold addEventListener. apply steady_bind; [apply steady_emit|].
  intros _. apply steady_modify. intros w. now apply advances_frame.
Qed.

Lemma steady_close_popup : steady close_popup.
Proof.
  unfold close_popup. apply steady_bind; [apply steady_this|].
  intros w. destruct (_popup w); [apply steady_emit|apply steady_ret].
Qed.

Lemma steady_handleDisconnect : steady _handleDisconnect.
Proof.
  intros w. rewrite handleDisconnect_spec. unfold advances, ids_ok. cbn.
  split; [lia|]. split; [|repeat split].
  intros [Hc _]. split; [exact Hc|constructor].
Qed.

Lemma Forall_aset (Q : Z -> Prop) (k : Z) (p : nat) (table : list (Z * nat)) :
  Q k ->
  Forall (fun entry => Q (fst entry)) table ->
  Forall (fun entry => Q (fst entry)) (aset Z.eqb k p table).
Proof.
  intros Hk. induction 1 as [|[k' p'] table Hx Htable IH]; cbn.
  - now repeat constructor.
  - destruct (Z.eqb_spec k k') as [->|_]; constructor; auto.
Qed.

(** [_sendRequest] either refuses and changes nothing, or hands back the
    fresh promise, stores it under the current counter, increments the
    counter and logs what it did. *)
Lemma sendRequest_spec (method : string) (params : list (string * JsVal))
    (w : Wallet) :
  (negb (method =? "connect")%string && negb (connected w) = true
   /\ _sendRequest method params w
      = (Thr (RError (JStr "Wallet not connected")), w))
  \/ exists events,
       _sendRequest method params w
       = (Ret (nextPromise w),
          set_log (log w ++ events)
            (set_responsePromises
               (aset Z.eqb (_nextRequestId w) (nextPromise w)
                  (_responsePromises w))
               (set_nextPromise (S (nextPromise w))
                  (set_nextRequestId (js_incr (_nextRequestId w)) w))))
       /\ Forall (fun ev => forall id, post_id ev = Some id ->
                                      id = _nextRequestId w) events.
Proof.
  unfold _sendRequest. unfold_monad.
  destruct (negb (method =? "connect")%string && negb (connected w));
    [left; split; reflexivity|right].
  destruct w as [inj url net pk aa popup added next table ls np lg].
  unfold set_log, set_responsePromises, set_nextPromise, set_nextRequestId.
  cbn -[js_incr aset].
  assert (Hall : forall events : list Event,
             forallb (fun ev => match post_id ev with
                                | Some id => id =? next
                                | None => true
                                end) events = true ->
             Forall (fun ev => forall id, post_id ev = Some id -> id = next)
                    events).
  { intros events Hb. apply Forall_forall. intros ev Hin id Hid.
    rewrite forallb_forall in Hb. specialize (Hb ev Hin).
    rewrite Hid in Hb. now apply Z.eqb_eq. }
  destruct inj;
    [eexists; split; [reflexivity|apply Hall; cbn; now rewrite Z.eqb_refl]|].
  destruct popup, url;
    try (eexists; split; [reflexivity|apply Hall; reflexivity]).
  destruct aa; cbn -[js_incr aset]; rewrite <- ?app_assoc;
    (eexists; split;
     [reflexivity|apply Hall; cbn; now rewrite Z.eqb_refl]).
Qed.

Lemma js_incr_bounds (c : Z) :
  1 <= c <= MAX_EXACT ->
  c <= js_incr c <= MAX_EXACT /\ (c < MAX_EXACT -> js_incr c = c + 1).
Proof.
  unfold js_incr. intros Hc.
  destruct (Z.ltb_spec c MAX_EXACT); lia.
Qed.

Lemma steady_sendRequest (method : string) (params : list (string * JsVal)) :
  steady (_sendRequest method params).
Proof.
  intros w.
  destruct (sendRequest_spec method params w) as [[_ ->] | [events [-> _]]];
    [apply advances_refl|].
  unfold advances, ids_ok. cbn.
  assert (Hle : _nextRequestId w <= js_incr (_nextRequestId w)).
  { unfold js_incr. destruct (_nextRequestId w <? MAX_EXACT); lia. }
  split; [exact Hle|]. split; [|repeat split].
  intros [Hc Hkeys]. pose proof (js_incr_bounds _ Hc) as [Hb Hs].
  split; [lia|].
  - apply (Forall_aset
             (fun k => k < js_incr (_nextRequestId w)
                       \/ js_incr (_nextRequestId w) = MAX_EXACT)).
    + destruct (Z.eq_dec (_nextRequestId w) MAX_EXACT) as [Heq|Hne].
      * right. unfold js_incr. rewrite Heq. reflexivity.
      * left. rewrite Hs; lia.
    + eapply Forall_impl; [|exact Hkeys]. cbn. intros entry [Hlt|Heq].
      * left. lia.
      * right. unfold js_incr. rewrite Heq. reflexivity.
Qed.

Lemma steady_handleConnect (opened : option nat) :
  steady (_handleConnect opened).
Proof.
  unfold _handleConnect. apply steady_bind; [apply steady_this|]. intros w.
  apply steady_bind.
  - apply steady_when.
    apply steady_bind;
      [apply steady_modify; intros w'; now apply advances_frame|].
    intros _. apply steady_bind; intros; apply steady_addEventListener.
  - intros _. destruct (_injectedProvider w).
    + apply steady_bind; [apply steady_new_promise|]. intros p.
      apply steady_bind;
        [apply steady_unawaited, steady_sendRequest|].
      intros _. apply steady_bind; [apply steady_emit|].
      intros _. apply steady_ret.
    + apply steady_bind; [apply steady_emit|]. intros _.
      apply steady_bind;
        [destruct (_providerUrl w); [apply steady_ret|apply steady_throw]|].
      intros url. apply steady_bind; [apply steady_emit|]. intros _.
      apply steady_bind;
        [apply steady_modify; intros w'; now apply advances_frame|].
      intros _. apply steady_bind; [apply steady_new_promise|]. intros p.
      apply steady_bind; [apply steady_emit|]. intros _. apply steady_ret.
Qed.

Lemma steady_connect (opened : option nat) : steady (connect opened).
Proof.
  unfold connect. apply steady_bind; [apply steady_close_popup|].
  intros _. apply steady_handleConnect.
Qed.

Lemma steady_sign (data display : JsVal) : steady (sign data display).
Proof.
  unfold sign. destruct data; try apply steady_throw.
  apply steady_sendRequest.
Qed.

Lemma steady_admitted (e : MessageEvent) (d : JsVal) : steady (admitted e d).
Proof. intros w. rewrite admitted_pure. apply advances_refl. Qed.

Lemma steady_on_connected (data : JsVal) : steady (on_connected data).
Proof.
  unfold on_connected.
  apply steady_bind; [apply steady_lift|]. intros params.
  apply steady_bind; [apply steady_lift|]. intros key.
  apply steady_bind;
    [destruct (PublicKey_new key); [apply steady_ret|apply steady_throw]|].
  intros newPublicKey.
  apply steady_bind; [apply steady_this|]. intros w.
  destruct (_ || _); [|apply steady_ret].
  apply steady_bind; [apply steady_when, steady_handleDisconnect|]. intros _.
  apply steady_bind;
    [apply steady_modify; intros w'; now apply advances_frame|].
  intros _. apply steady_bind; [apply steady_lift|]. intros autoApprove.
  apply steady_bind;
    [apply steady_modify; intros w'; now apply advances_frame|].
  intros _. apply steady_emit.
Qed.

Lemma steady_on_response (data : JsVal) : steady (on_response data).
Proof.
  unfold on_response.
  apply steady_bind; [apply steady_lift|]. intros result.
  apply steady_bind; [apply steady_lift|]. intros error.
  destruct (_ || _); [|apply steady_ret].
  apply steady_bind; [apply steady_lift|]. intros id.
  apply steady_bind; [apply steady_this|]. intros w.
  destruct (pending_lookup id w); [|apply steady_ret].
  destruct (truthy result); apply steady_emit.
Qed.

Lemma steady_handleMessage (e : MessageEvent) : steady (_handleMessage e).
Proof.
  unfold _handleMessage.
  apply steady_bind; [apply steady_admitted|]. intros [|]; [|apply steady_ret].
  apply steady_bind; [apply steady_lift|]. intros method.
  destruct (js_is_str method "connected"); [apply steady_on_connected|].
  destruct (js_is_str method "disconnected");
    [apply steady_handleDisconnect|apply steady_on_response].
Qed.

Lemma steady_disconnect_teardown : steady disconnect_teardown.
Proof.
  unfold disconnect_teardown.
  apply steady_bind; [apply steady_close_popup|].
  intros _. apply steady_handleDisconnect.
Qed.

Lemma advances_step (op : Op) (w : Wallet) : advances w (step op w).
Proof.
  destruct op as [opened| |p|e|method params|data display]; cbn [step].
  - apply steady_connect.
  - unfold disconnect. destruct (_injectedProvider w).
    + pose proof (steady_sendRequest "disconnect" [] w) as Hs.
      destruct (_sendRequest "disconnect" [] w) as [[p|r] w']; exact Hs.
    + apply steady_disconnect_teardown.
  - unfold disconnect_resume.
    destruct (settlement p (log w)) as [[v|r]|]; try apply advances_refl.
    apply steady_disconnect_teardown.
  - apply steady_handleMessage.
  - apply steady_sendRequest.
  - apply steady_sign.
Qed.

Lemma advances_run (ops : list Op) : forall w, advances w (run ops w).
Proof.
  induction ops as [|op ops IH]; intros w; [apply advances_refl|].
  cbn. eapply advances_trans; [apply advances_step|apply IH].
Qed.

Lemma constructor_ids_ok (provider : Provider) (network : string)
    (w : Wallet) :
  Wallet_constructor provider network = Ret w ->
  _nextRequestId w = 1 /\ ids_ok w /\ _responsePromises w = [].
Proof.
  unfold Wallet_constructor, ids_ok, MAX_EXACT. intros Hw.
  destruct provider as [h f|s|].
  - destruct (isInjectedProvider _); inversion Hw; subst; cbn.
    repeat split; try lia. constructor.
  - destruct (URL_new s); inversion Hw; subst; cbn.
    repeat split; try lia. constructor.
  - discriminate.
Qed.

Lemma constructor_string_not_injected (s network : string) (w : Wallet) :
  Wallet_constructor (ProvString s) network = Ret w ->
  _injectedProvider w = None.
Proof.
  unfold Wallet_constructor. intros Hw.
  destruct (URL_new s); inversion Hw; reflexivity.
Qed.

(** The constructor's three cases, by the source's own classifiers. *)
Lemma constructor_classified (provider : Provider) (network : string) :
  match Wallet_constructor provider network with
  | Ret w =>
      _handlerAdded w = false /\ listeners w = [] /\ log w = []
      /\ _publicKey w = None /\ _popup w = None
      /\ (if isInjectedProvider provider
          then _injectedProvider w <> None /\ _providerUrl w = None
          else isString provider = true
               /\ _injectedProvider w = None /\ _providerUrl w <> None)
  | Thr _ =>
      isInjectedProvider provider = false
      /\ (isString provider = true ->
          exists s, provider = ProvString s /\ URL_new s = None)
  end.
Proof.
  unfold Wallet_constructor.
  destruct provider as [h [|]|s|]; cbn.
  - repeat split; discriminate.
  - split; [reflexivity|discriminate].
  - destruct (URL_new s) eqn:Hs; cbn.
    + repeat split; discriminate.
    + split; [reflexivity|]. intros _. now exists s.
  - split; [reflexivity|discriminate].
Qed.

(** Sending [n] more [connect] requests moves the counter [n] steps up, but
    not past [2^53]. *)
Lemma counter_after_sends (n : N) (w : Wallet) :
  1 <= _nextRequestId w <= MAX_EXACT ->
  _nextRequestId (N.iter n send_connect w)
  = Z.min (_nextRequestId w + Z.of_N n) MAX_EXACT.
Proof.
  intros Hc. induction n as [|n IH] using N.peano_ind.
  - cbn. lia.
  - rewrite N.iter_succ. unfold send_connect at 1.
    destruct (sendRequest_spec "connect" [] (N.iter n send_connect w))
      as [[Hs _]|[events [Hs _]]].
    + discriminate.
    + rewrite Hs. cbn. rewrite IH. unfold js_incr.
      destruct (Z.ltb_spec (Z.min (_nextRequestId w + Z.of_N n) MAX_EXACT)
                  MAX_EXACT); lia.
Qed.

(** ** The claims *)

(** C1, as the code has it. Take a session built from a provider URL, in
    any state its operations can bring it to. The provider URL is still
    the one fixed at construction, and a message whose payload is not tagged
    [isRN] and whose declared origin differs from the origin of that URL
    leaves the whole session unchanged: identity, auto-approve flag, table
    and log. *)
Theorem C1_untagged_foreign_origin_dropped (s network : string)
    (w0 : Wallet) (u : URL) (ops : list Op) (e : MessageEvent) :
  Wallet_constructor (ProvString s) network = Ret w0 ->
  _providerUrl w0 = Some u ->
  ev_origin e <> url_origin u ->
  ~ tagged e (run ops w0) ->
  _providerUrl (run ops w0) = Some u
  /\ snd (_handleMessage e (run ops w0)) = run ops w0.
Proof.
  unfold tagged. intros Hnew Hurl Horigin Htag.
  destruct (advances_run ops w0) as (_ & _ & Hinj & Hu & _).
  rewrite (constructor_string_not_injected _ _ _ Hnew) in Hinj.
  rewrite Hurl in Hu. split; [exact Hu|].
  apply handleMessage_not_admitted.
  unfold admitted. unfold_monad. rewrite tagged_isRN_pure.
  destruct (fst (tagged_isRN (parse_data (ev_data e)) (run ops w0)))
    as [[|]|]; cbn; try discriminate.
  - now contradiction Htag.
  - rewrite Hinj, Hu. cbn.
    apply String.eqb_neq in Horigin. rewrite Horigin. discriminate.
Qed.

(** C3, as the code has it. On an injected session [disconnect()] first
    sends the [disconnect] request. If the session is not connected that
    fails and nothing is torn down. If it is connected the request is posted
    and the call is suspended with the session still connected; when it is
    looked at again it stays suspended while the request is unsettled, is
    rejected with the session untouched when the request was rejected, and
    closes the popup and runs the disconnect handler (identity cleared, table
    emptied, every entry rejected) only when the request was fulfilled. *)
Theorem C3_disconnect_waits_for_reply (w : Wallet) (provider : nat) :
  _injectedProvider w = Some provider ->
  (connected w = false ->
     disconnect w = (Rejected (RError (JStr "Wallet not connected")), w))
  /\ (connected w = true ->
      exists w1,
        disconnect w = (Awaiting (nextPromise w), w1)
        /\ log w1 = (log w ++
              [EvPostInjected provider
                 (mkRequest (_nextRequestId w) "disconnect"
                    (JObj [("network", JStr (_network w))]))])%list
        /\ _publicKey w1 = _publicKey w
        /\ _handlerAdded w1 = _handlerAdded w)
  /\ (forall (p : nat) (w2 : Wallet),
        match settlement p (log w2) with
        | None => disconnect_resume p w2 = (Awaiting p, w2)
        | Some (Thr r) => disconnect_resume p w2 = (Rejected r, w2)
        | Some (Ret _) =>
            exists w3,
              disconnect_resume p w2 = (Fulfilled, w3)
              /\ w3 = after_disconnect (snd (close_popup w2))
              /\ _publicKey w3 = None
              /\ _responsePromises w3 = []
              /\ exists events,
                   log w3 = (log w2 ++ events
                             ++ rejections (_responsePromises w2))%list
        end).
Proof.
  intros Hinj. split; [|split].
  - intros Hc. unfold disconnect, _sendRequest. unfold_monad.
    rewrite Hinj, Hc. reflexivity.
  - intros Hc. unfold disconnect, _sendRequest. unfold_monad.
    rewrite Hinj, Hc. cbn.
    eexists. split; [reflexivity|]. repeat split.
  - intros p w2. unfold disconnect_resume.
    destruct (settlement p (log w2)) as [[v|r]|]; try reflexivity.
    unfold disconnect_teardown, bind at 1.
    assert (Hclose : exists ev, close_popup w2
                                = (Ret tt, set_log (log w2 ++ ev) w2)).
    { unfold close_popup. unfold_monad. destruct (_popup w2).
      - eexists. reflexivity.
      - exists []. rewrite app_nil_r. unfold set_log. now rewrite wallet_eta. }
    destruct Hclose as [ev Hclose]. rewrite Hclose, handleDisconnect_spec.
    eexists. split; [reflexivity|]. cbn.
    do 3 (split; [reflexivity|]).
    exists (ev
            ++ (if _handlerAdded w2
                then [EvRemoveListener RWindow "message";
                      EvRemoveListener RWindow "beforeunload"]
                else [])
            ++ (if connected (set_log (log w2 ++ ev) w2)
                then [EvEmitDisconnect] else []))%list.
    rewrite <- !app_assoc. reflexivity.
Qed.

(** C4, as the code has it. A fresh session has no listener and has
    posted nothing. [connect()] installs the message listener exactly when
    the handler flag is unset, right after closing an old popup (which posts
    nothing) and before anything else it does; with the flag set it adds no
    listener. Every run of the disconnect handler clears
    the flag and, when the flag was set, removes the listener from [window];
    an admitted [disconnected] notification is such a run. *)
Theorem C4_listener_follows_handler_flag (w : Wallet) (opened : option nat) :
  let receiver := if isUIWebView then RWindow else RDocument in
  let w1 := snd (connect opened w) in
  let w2 := snd (_handleDisconnect w) in
  (forall provider network w0,
      Wallet_constructor provider network = Ret w0 ->
      _handlerAdded w0 = false /\ listeners w0 = [] /\ log w0 = [])
  /\ (exists closing,
        log (snd (close_popup w)) = (log w ++ closing)%list
        /\ existsb is_post closing = false)
  /\ (_handlerAdded w = false ->
     _handlerAdded w1 = true
     /\ has_listener receiver "message" (listeners w1) = true
     /\ exists rest,
          log w1 = (log (snd (close_popup w))
                    ++ [EvAddListener receiver "message";
                        EvAddListener receiver "beforeunload"]
                    ++ rest)%list)
  /\ (_handlerAdded w = true ->
      _handlerAdded w1 = true
      /\ listeners w1 = listeners w
      /\ exists events,
           log w1 = (log w ++ events)%list
           /\ existsb is_add_listener events = false)
  /\ _handlerAdded w2 = false
  /\ (_handlerAdded w = true ->
      has_listener RWindow "message" (listeners w2) = false
      /\ exists rest,
           log w2 = (log w
                     ++ [EvRemoveListener RWindow "message";
                         EvRemoveListener RWindow "beforeunload"]
                     ++ rest)%list)
  /\ (forall e : MessageEvent,
        is_admitted e w ->
        js_get (parse_data (ev_data e)) "method" = Ret (JStr "disconnected") ->
        snd (_handleMessage e w) = w2).
Proof.
  cbn zeta. rewrite handleDisconnect_spec.
  split; [|split; [|split; [|split; [|split; [|split]]]]].
  - intros provider network w0 Hw0.
    pose proof (constructor_classified provider network) as Hc.
    rewrite Hw0 in Hc. destruct Hc as (Hflag & Hl & Hlog & _).
    now repeat split.
  - unfold close_popup. unfold_monad. destruct (_popup w); cbn.
    + eexists. split; reflexivity.
    + exists []. now rewrite app_nil_r.
  - intros Hflag.
    unfold connect, close_popup, _handleConnect, addEventListener,
      _sendRequest, connected.
    unfold_monad.
    destruct w as [inj url net pk aa popup added next table ls np lg].
    cbn in Hflag. subst added. cbn.
    destruct popup, inj, url; cbn;
      (split; [reflexivity|]);
      (split; [apply has_listener_kept, has_listener_added|]);
      eexists; rewrite <- ?app_assoc; cbn; reflexivity.
  - intros Hflag.
    unfold connect, close_popup, _handleConnect, addEventListener,
      _sendRequest, connected.
    unfold_monad.
    destruct w as [inj url net pk aa popup added next table ls np lg].
    cbn in Hflag. subst added. cbn.
    destruct popup, inj, url; cbn;
      (split; [reflexivity|]); (split; [reflexivity|]);
      rewrite <- ?app_assoc; cbn; eexists; (split; [reflexivity|]);
      reflexivity.
  - reflexivity.
  - intros Hflag. unfold after_disconnect. rewrite Hflag. cbn.
    split; [apply has_listener_removed|].
    eexists. reflexivity.
  - intros e Hadm Hm. rewrite (handleMessage_admitted _ _ Hadm).
    unfold_monad. rewrite Hm. cbn. now rewrite handleDisconnect_spec.
Qed.

(** C5, as the code has it. Constructing a session from a provider string
    that parses as a URL stores that URL with its query component untouched
    and with its fragment replaced by the form-encoded pairs
    [origin=<page origin>&network=<network>]. *)
Theorem C5_parameters_in_fragment (s network : string) (u : URL) :
  URL_new s = Some u ->
  exists (w : Wallet) (u' : URL),
    Wallet_constructor (ProvString s) network = Ret w
    /\ _providerUrl w = Some u'
    /\ url_query u' = url_query u
    /\ url_origin u' = url_origin u
    /\ url_fragment u'
       = Some ("origin=" ++ urlencode location_origin
               ++ "&network=" ++ urlencode network)
    /\ URL_toString u'
       = url_base u ++ url_path u
         ++ match url_query u with Some q => "?" ++ q | None => "" end
         ++ "#origin=" ++ urlencode location_origin
         ++ "&network=" ++ urlencode network.
Proof.
  intros Hu. unfold Wallet_constructor. rewrite Hu.
  rewrite params_toString, URL_set_hash_plain.
  - eexists. eexists. split; [reflexivity|]. split; [reflexivity|].
    unfold URL_toString. cbn [url_query url_origin url_fragment url_base
                              url_path].
    repeat split; reflexivity.
  - reflexivity.
  - change (String "o" ("rigin=" ++ ?x)) with ("origin=" ++ x).
    rewrite !string_forallb_app, !urlencode_plain. reflexivity.
Qed.

(** C6. A request whose method is not [connect], issued while the session
    is not connected, is rejected with the not-connected error and the
    session is left exactly as it was: nothing is posted, the request
    counter is not advanced and the table of pending requests gets no
    entry. [sign] on a byte array fails the same way. *)
Theorem C6_not_connected_fails_fast (w : Wallet) (method : string)
    (params : list (string * JsVal)) (bytes : list Z) (display : JsVal) :
  method <> "connect" ->
  connected w = false ->
  _sendRequest method params w
    = (Thr (RError (JStr "Wallet not connected")), w)
  /\ sign (JBytes bytes) display w
    = (Thr (RError (JStr "Wallet not connected")), w).
Proof.
  intros Hm Hc. unfold sign, _sendRequest. unfold_monad. rewrite Hc.
  apply String.eqb_neq in Hm. rewrite Hm. split; reflexivity.
Qed.

(** C7. An admitted [connected] notification carrying [B] while the session
    is connected with a different identity [A] first runs the disconnect
    handler (the session is disconnected in between), then adopts [B]; the
    host sees exactly a disconnect event followed by a connect event for
    [B]. *)
Theorem C7_identity_change (w : Wallet) (e : MessageEvent) (A B : PublicKey) :
  _publicKey w = Some A ->
  connected_notification e B w ->
  PublicKey_equals A B = false ->
  let w1 := snd (_handleDisconnect w) in
  let w2 := snd (_handleMessage e w) in
  connected w = true
  /\ connected w1 = false
  /\ (exists autoApprove,
        w2 = set_log (log w1 ++ [EvEmitConnect B])
               (set_autoApprove autoApprove (set_publicKey (Some B) w1)))
  /\ _publicKey w2 = Some B
  /\ emitted (log w2)
      = (emitted (log w) ++ [EvEmitDisconnect; EvEmitConnect B])%list.
Proof.
  intros HA (Hadm & Hm & params & key & Hp & Hk & Hnew) Hne. cbn zeta.
  rewrite (handleMessage_admitted _ _ Hadm).
  unfold on_connected, connected. unfold_monad.
  rewrite Hm. cbn. rewrite Hp, Hk, Hnew, HA, Hne. cbn.
  rewrite handleDisconnect_spec.
  assert (Hparams : exists v, js_get params "autoApprove" = Ret v).
  { destruct params; cbn in Hk; try discriminate; eexists; reflexivity. }
  destruct Hparams as [v Hv]. rewrite Hv. cbn.
  repeat split.
  - exists (truthy v). reflexivity.
  - unfold after_disconnect, connected. cbn. rewrite HA.
    rewrite !emitted_app, emitted_rejections.
    destruct (_handlerAdded w); unfold emitted at 2 3 4; cbn;
      now rewrite <- app_assoc.
Qed.

(** C8. While the session is connected with identity [A], any sequence of
    admitted [connected] notifications carrying an identity equal to [A]
    leaves the session unchanged: no transition, and nothing is emitted. *)
Theorem C8_same_identity_idempotent (w : Wallet) (A : PublicKey)
    (es : list MessageEvent) :
  _publicKey w = Some A ->
  Forall (fun e => exists B, connected_notification e B w
                             /\ PublicKey_equals A B = true) es ->
  deliver es w = w /\ emitted (log (deliver es w)) = emitted (log w).
Proof.
  intros HA Hall.
  assert (Hsame : deliver es w = w).
  { induction Hall as [|e es (B & Hn & Heq) _ IH]; [reflexivity|].
    cbn. rewrite (connected_same_identity w e A B HA Hn Heq). exact IH. }
  rewrite Hsame. split; reflexivity.
Qed.

(** C9, as the code has it. The counter of a new session is 1. While the
    counter is below [2^53], a request that is accepted takes the current
    counter as its id, that id is not in the table at that moment, the
    request is stored under it, every message it posts carries it, and the
    counter goes up by one. No sequence
    of operations lowers the counter, so a later request gets a strictly
    larger id, whatever happened in between. *)
Theorem C9_request_ids (w : Wallet) :
  ids_ok w ->
  (forall provider network w0,
      Wallet_constructor provider network = Ret w0 ->
      _nextRequestId w0 = 1 /\ ids_ok w0)
  /\ (forall ops, _nextRequestId w <= _nextRequestId (run ops w)
                  /\ ids_ok (run ops w))
  /\ (forall method params p w',
        _sendRequest method params w = (Ret p, w') ->
        _nextRequestId w < MAX_EXACT ->
        ahas Z.eqb (_nextRequestId w) (_responsePromises w) = false
        /\ alookup Z.eqb (_nextRequestId w) (_responsePromises w') = Some p
        /\ _nextRequestId w' = _nextRequestId w + 1
        /\ (exists events,
              log w' = (log w ++ events)%list
              /\ Forall (fun ev => forall id, post_id ev = Some id ->
                                             id = _nextRequestId w) events)
        /\ forall ops, _nextRequestId w < _nextRequestId (run ops w')).
Proof.
  intros Hok. split; [|split].
  - intros provider network w0 Hw0.
    destruct (constructor_ids_ok _ _ _ Hw0) as (H1 & H2 & _). now split.
  - intros ops. destruct (advances_run ops w) as (Hle & Hkeep & _).
    split; [exact Hle|exact (Hkeep Hok)].
  - intros method params p w' Hsend Hlt.
    destruct (sendRequest_spec method params w)
      as [[_ Hs]|[events [Hs Hposted]]];
      rewrite Hs in Hsend; [discriminate|].
    inversion Hsend; subst p w'; clear Hsend. cbn.
    destruct Hok as [Hc Hkeys].
    destruct (js_incr_bounds _ Hc) as [_ Hincr]. specialize (Hincr Hlt).
    split; [|split; [|split; [|split]]].
    + unfold ahas.
      assert (Hnone : forall table : list (Z * nat),
                 Forall (fun entry => fst entry < _nextRequestId w
                                      \/ _nextRequestId w = MAX_EXACT) table ->
                 alookup Z.eqb (_nextRequestId w) table = None).
      { induction 1 as [|[k q] table Hk _ IH]; [reflexivity|]. cbn in *.
        destruct (Z.eqb_spec (_nextRequestId w) k); [lia|exact IH]. }
      now rewrite (Hnone _ Hkeys).
    + generalize (_responsePromises w). intros table.
      induction table as [|[k q] table IH]; cbn.
      * now rewrite Z.eqb_refl.
      * destruct (Z.eqb_spec (_nextRequestId w) k) as [Heq|Hne]; cbn.
        -- rewrite <- Heq, Z.eqb_refl. reflexivity.
        -- destruct (Z.eqb_spec (_nextRequestId w) k); [contradiction|].
           exact IH.
    + exact Hincr.
    + exists events. split; [reflexivity|exact Hposted].
    + intros ops.
      match goal with
      | |- _ < _nextRequestId (run ops ?w1) =>
          destruct (advances_run ops w1) as (Hle & _)
      end.
      cbn in Hle. lia.
Qed.

(** C10. For an admitted response whose id has an entry in the table, the
    handler tests the truthiness of [result], then of [error]: a truthy
    [result] calls [resolve] with it whatever [error] is; otherwise a truthy
    [error] calls [reject]; when both are falsy nothing happens and the
    session, the entry included, is unchanged. *)
Theorem C10_truthiness_dispatch (w : Wallet) (e : MessageEvent)
    (id result error : JsVal) (p : nat) :
  response_message e id result error w ->
  pending_lookup id w = Some p ->
  snd (_handleMessage e w) =
    if truthy result then set_log (log w ++ [EvResolve p result]) w
    else if truthy error then set_log (log w ++ [EvReject p (RError error)]) w
    else w.
Proof.
  intros (Hadm & (m & Hm & Hc & Hd) & Hid & Hres & Herr) Hp.
  rewrite (handleMessage_admitted _ _ Hadm).
  unfold on_response. unfold_monad.
  rewrite Hm, Hc, Hd, Hres, Herr. cbn.
  destruct (truthy result); cbn.
  - rewrite Hid, Hp. reflexivity.
  - destruct (truthy error); cbn; [|reflexivity].
    rewrite Hid, Hp. reflexivity.
Qed.

(** ** More of the class: the disconnect handler *)

Lemma settlement_app (p : nat) (l1 l2 : list Event) :
  settlement p (l1 ++ l2)
  = match settlement p l1 with
    | Some r => Some r
    | None => settlement p l2
    end.
Proof.
  induction l1 as [|ev l1 IH]; [reflexivity|].
  destruct ev; cbn; try exact IH; destruct (Nat.eqb _ p); auto.
Qed.

Lemma settlement_rejections (p : nat) (table : list (Z * nat)) :
  settlement p (rejections table)
  = if existsb (fun entry => Nat.eqb (snd entry) p) table
    then Some (Thr (RString "Wallet disconnected"))
    else None.
Proof.
  unfold rejections.
  induction table as [|[k q] table IH]; [reflexivity|].
  cbn. destruct (Nat.eqb q p); [reflexivity|exact IH].
Qed.

Lemma filter_rejections (table : list (Z * nat)) :
  filter is_settle (rejections table) = rejections table
  /\ filter is_reject (rejections table) = rejections table
  /\ filter is_post (rejections table) = [].
Proof.
  unfold rejections.
  induction table as [|entry table (IH1 & IH2 & IH3)]; [now repeat split|].
  cbn. now rewrite IH1, IH2, IH3.
Qed.

(** X1. Whatever the state, the disconnect handler leaves the table empty
    and the session disconnected; the only continuations it calls are the
    [reject]s of the entries that were in the table, one per entry and in
    insertion order, each with the text [Wallet disconnected]; it posts
    nothing. *)
Theorem handleDisconnect_rejects_every_entry (w : Wallet) :
  let w' := snd (_handleDisconnect w) in
  _responsePromises w' = []
  /\ connected w' = false
  /\ exists events,
       log w' = (log w ++ events)%list
       /\ filter is_settle events = rejections (_responsePromises w)
       /\ List.length (filter is_reject events)
          = List.length (_responsePromises w)
       /\ filter is_post events = [].
Proof.
  cbv zeta. rewrite handleDisconnect_spec.
  split; [reflexivity|]. split; [reflexivity|].
  destruct (filter_rejections (_responsePromises w)) as (Hs & Hr & Hp).
  eexists. split; [reflexivity|].
  rewrite !filter_app, Hs, Hr, Hp.
  assert (Hlen : List.length (rejections (_responsePromises w))
                 = List.length (_responsePromises w))
    by apply List.length_map.
  destruct (_handlerAdded w), (connected w); cbn [filter is_settle is_reject
    is_post app]; rewrite ?Hlen; now repeat split.
Qed.

(** X2. The disconnect handler emits the disconnect event exactly when the
    session was connected, and running it a second time changes nothing:
    no second event, no second removal, no rejection. *)
Theorem handleDisconnect_idempotent (w : Wallet) :
  let w' := snd (_handleDisconnect w) in
  emitted (log w')
  = (emitted (log w) ++ if connected w then [EvEmitDisconnect] else [])%list
  /\ _handleDisconnect w' = (Ret tt, w').
Proof.
  cbv zeta. rewrite !handleDisconnect_spec. split.
  - unfold after_disconnect. cbn [snd log].
    rewrite !emitted_app, emitted_rejections.
    destruct (_handlerAdded w), (connected w); unfold emitted at 2 3; cbn;
      rewrite ?app_nil_r; reflexivity.
  - cbn [snd]. unfold after_disconnect at 1. cbn.
    unfold after_disconnect. cbn. rewrite !app_nil_r. reflexivity.
Qed.

(** X3. A request that is in the table and not yet settled when the
    disconnect handler runs is settled by it: rejected with the text
    [Wallet disconnected]. *)
Theorem handleDisconnect_settles_pending (w : Wallet) (id : Z) (p : nat) :
  In (id, p) (_responsePromises w) ->
  settlement p (log w) = None ->
  settlement p (log (snd (_handleDisconnect w)))
  = Some (Thr (RString "Wallet disconnected")).
Proof.
  intros Hin Hnone. rewrite handleDisconnect_spec.
  unfold after_disconnect. cbn [snd log].
  rewrite !settlement_app, Hnone, settlement_rejections.
  assert (Hex : existsb (fun entry => Nat.eqb (snd entry) p)
                  (_responsePromises w) = true).
  { apply existsb_exists. exists (id, p). split; [exact Hin|].
    apply Nat.eqb_refl. }
  rewrite Hex.
  destruct (_handlerAdded w), (connected w); reflexivity.
Qed.

(** ** More of the class: the message handler *)

(** X4. On a disconnected session an admitted [connected] notification
    adopts the identity, sets the auto-approve flag to the truthiness of
    its [autoApprove] parameter and emits one connect event; it runs no
    disconnect, so the table of pending requests is untouched. *)
Theorem first_connected_notification (w : Wallet) (e : MessageEvent)
    (B : PublicKey) :
  _publicKey w = None ->
  connected_notification e B w ->
  exists params flag,
    js_get (parse_data (ev_data e)) "params" = Ret params
    /\ js_get params "autoApprove" = Ret flag
    /\ _handleMessage e w
       = (Ret tt,
          set_log (log w ++ [EvEmitConnect B])
            (set_autoApprove (truthy flag) (set_publicKey (Some B) w))).
Proof.
  intros Hnone (Hadm & Hm & params & key & Hp & Hk & Hnew).
  assert (Hflag : exists v, js_get params "autoApprove" = Ret v).
  { destruct params; cbn in Hk; try discriminate; eexists; reflexivity. }
  destruct Hflag as [flag Hflag]. exists params, flag.
  split; [exact Hp|]. split; [exact Hflag|].
  rewrite (handleMessage_admitted _ _ Hadm).
  unfold on_connected, connected. unfold_monad.
  rewrite Hm. cbn. rewrite Hp, Hk, Hnew, Hnone. cbn. rewrite Hflag.
  reflexivity.
Qed.

(** X5. An admitted [connected] notification whose key cannot be read
    (no [params], or a [publicKey] the key constructor refuses) makes the
    handler throw before it touches the session. *)
Theorem malformed_connected_notification (w : Wallet) (e : MessageEvent) :
  is_admitted e w ->
  js_get (parse_data (ev_data e)) "method" = Ret (JStr "connected") ->
  (forall params key,
      js_get (parse_data (ev_data e)) "params" = Ret params ->
      js_get params "publicKey" = Ret key ->
      PublicKey_new key = None) ->
  exists r, _handleMessage e w = (Thr r, w).
Proof.
  intros Hadm Hm Hbad.
  rewrite (handleMessage_admitted _ _ Hadm).
  unfold on_connected. unfold_monad. rewrite Hm. cbn.
  destruct (js_get (parse_data (ev_data e)) "params") as [params|r] eqn:Hp;
    [|now exists r].
  destruct (js_get params "publicKey") as [key|r] eqn:Hk; [|now exists r].
  rewrite (Hbad params key eq_refl Hk). now exists RInvalidKey.
Qed.

(** X6. An admitted response whose id has no entry in the table (unknown,
    not a number, or swept by a disconnect) is discarded: the session is
    unchanged, whatever its result and error are. *)
Theorem stale_response_discarded (w : Wallet) (e : MessageEvent)
    (id result error : JsVal) :
  response_message e id result error w ->
  pending_lookup id w = None ->
  _handleMessage e w = (Ret tt, w).
Proof.
  intros (Hadm & (m & Hm & Hc & Hd) & Hid & Hres & Herr) Hnone.
  rewrite (handleMessage_admitted _ _ Hadm).
  unfold on_response. unfold_monad.
  rewrite Hm, Hc, Hd, Hres, Herr. cbn.
  destruct (truthy result || truthy error); [|reflexivity].
  rewrite Hid, Hnone. reflexivity.
Qed.

Lemma tagged_isRN_set_log (d : JsVal) (l : list Event) (w : Wallet) :
  fst (tagged_isRN d (set_log l w)) = fst (tagged_isRN d w).
Proof.
  unfold tagged_isRN. unfold_monad.
  destruct (js_typeof d =? "object")%string; [|reflexivity].
  destruct (js_get d "isRN"); reflexivity.
Qed.

(** Admission does not look at the log. *)
Lemma is_admitted_set_log (e : MessageEvent) (l : list Event) (w : Wallet) :
  is_admitted e w -> is_admitted e (set_log l w).
Proof.
  unfold is_admitted, admitted. unfold_monad.
  rewrite (tagged_isRN_pure _ (set_log l w)), (tagged_isRN_pure _ w).
  rewrite tagged_isRN_set_log.
  destruct (fst (tagged_isRN (parse_data (ev_data e)) w)) as [[|]|];
    cbn; auto.
  destruct (_ && _); [auto|].
  destruct (_providerUrl w); auto.
Qed.

(** The events by which a response settles promise [p]. *)
Lemma response_appends (w : Wallet) (e : MessageEvent)
    (id result error : JsVal) (p : nat) (l : list Event) :
  response_message e id result error w ->
  pending_lookup id w = Some p ->
  snd (_handleMessage e (set_log l w))
  = set_log (l ++ (if truthy result then [EvResolve p result]
                   else if truthy error then [EvReject p (RError error)]
                   else [])) w.
Proof.
  intros (Hadm & (m & Hm & Hc & Hd) & Hid & Hres & Herr) Hp.
  rewrite (handleMessage_admitted _ _ (is_admitted_set_log e l w Hadm)).
  unfold on_response. unfold_monad.
  rewrite Hm, Hc, Hd, Hres, Herr. cbn.
  assert (Hp' : pending_lookup id (set_log l w) = Some p)
    by (destruct id; exact Hp).
  destruct (truthy result); cbn.
  - rewrite Hid, Hp'. reflexivity.
  - destruct (truthy error); cbn.
    + rewrite Hid, Hp'. reflexivity.
    + unfold set_log. cbn. now rewrite app_nil_r.
Qed.

Lemma alookup_In (k : Z) (p : nat) (table : list (Z * nat)) :
  alookup Z.eqb k table = Some p -> In (k, p) table.
Proof.
  induction table as [|[k' q] table IH]; [discriminate|]. cbn.
  destruct (Z.eqb_spec k k') as [->|_].
  - intros [= ->]. now left.
  - intros Hl. right. exact (IH Hl).
Qed.

Lemma NoDup_snd_injective (table : list (Z * nat)) (k1 k2 : Z) (p : nat) :
  NoDup (map snd table) ->
  In (k1, p) table -> In (k2, p) table -> k1 = k2.
Proof.
  induction table as [|[k q] table IH]; [contradiction|].
  cbn. intros Hnd [H1|H1] [H2|H2]; inversion Hnd as [|? ? Hnotin Hnd']; subst.
  - congruence.
  - inversion H1; subst. exfalso. apply Hnotin.
    change p with (snd (k2, p)). now apply in_map.
  - inversion H2; subst. exfalso. apply Hnotin.
    change p with (snd (k1, p)). now apply in_map.
  - now apply IH.
Qed.

(** X7. Two admitted responses for two different request ids can arrive in
    either order: every promise ends up settled the same way. *)
Theorem responses_commute (w : Wallet) (e1 e2 : MessageEvent)
    (n1 n2 : Z) (r1 r2 err1 err2 : JsVal) (p1 p2 : nat) :
  promises_ok w ->
  response_message e1 (JNum n1) r1 err1 w ->
  response_message e2 (JNum n2) r2 err2 w ->
  pending_lookup (JNum n1) w = Some p1 ->
  pending_lookup (JNum n2) w = Some p2 ->
  n1 <> n2 ->
  forall p,
    settlement p (log (deliver [e1; e2] w))
    = settlement p (log (deliver [e2; e1] w)).
Proof.
  intros (_ & Hnd & _) H1 H2 Hp1 Hp2 Hne p.
  assert (Hpp : p1 <> p2).
  { intros ->. apply Hne.
    exact (NoDup_snd_injective _ _ _ _ Hnd (alookup_In _ _ _ Hp1)
             (alookup_In _ _ _ Hp2)). }
  assert (Hw : w = set_log (log w) w)
    by (unfold set_log; now rewrite wallet_eta).
  assert (Hfirst1 := response_appends w e1 _ _ _ p1 (log w) H1 Hp1).
  assert (Hfirst2 := response_appends w e2 _ _ _ p2 (log w) H2 Hp2).
  rewrite <- Hw in Hfirst1, Hfirst2.
  unfold deliver. cbn [fold_left].
  rewrite Hfirst1, Hfirst2.
  rewrite (response_appends w e2 _ _ _ p2 _ H2 Hp2).
  rewrite (response_appends w e1 _ _ _ p1 _ H1 Hp1).
  cbn [log set_log]. rewrite <- !app_assoc, !settlement_app.
  destruct (settlement p (log w)); [reflexivity|].
  apply Nat.eqb_neq in Hpp.
  destruct (truthy r1), (truthy err1), (truthy r2), (truthy err2); cbn;
    destruct (Nat.eqb p1 p) eqn:E1, (Nat.eqb p2 p) eqn:E2; try reflexivity;
    apply Nat.eqb_eq in E1, E2; subst; rewrite Nat.eqb_refl in Hpp;
    discriminate.
Qed.

(** ** More of the class: which messages are admitted *)

(** On a session without injected provider, with the payload not tagged:
    the third clause of the test decides. *)
Lemma admitted_remote (w : Wallet) (e : MessageEvent) (u : URL) :
  _injectedProvider w = None ->
  _providerUrl w = Some u ->
  fst (tagged_isRN (parse_data (ev_data e)) w) = Ret false ->
  fst (admitted e (parse_data (ev_data e)) w)
  = Ret ((ev_origin e =? url_origin u)%string
         && source_is_popup (ev_source e) (_popup w)).
Proof.
  intros Hinj Hurl Htag. unfold admitted. unfold_monad.
  rewrite tagged_isRN_pure, Htag. cbn. rewrite Hinj, Hurl. reflexivity.
Qed.

(** X8. On a remote-window session a message is admitted exactly when its
    payload is tagged [isRN], or its declared origin is the origin of the
    provider URL and its source is the window the session holds as popup.
    In particular an untagged message from the right origin but another
    window is dropped and changes nothing. *)
Theorem remote_admission (w : Wallet) (e : MessageEvent) (u : URL) :
  _injectedProvider w = None ->
  _providerUrl w = Some u ->
  (is_admitted e w <->
     tagged e w
     \/ (fst (tagged_isRN (parse_data (ev_data e)) w) = Ret false
         /\ ev_origin e = url_origin u
         /\ source_is_popup (ev_source e) (_popup w) = true))
  /\ (~ tagged e w ->
      source_is_popup (ev_source e) (_popup w) = false ->
      snd (_handleMessage e w) = w).
Proof.
  intros Hinj Hurl. unfold tagged. split.
  - unfold is_admitted.
    destruct (fst (tagged_isRN (parse_data (ev_data e)) w)) as [[|]|r] eqn:Ht.
    + unfold admitted. unfold_monad. rewrite tagged_isRN_pure, Ht. cbn.
      split; [now left|reflexivity].
    + rewrite (admitted_remote w e u Hinj Hurl Ht). split.
      * intros [= Hb]. apply andb_true_iff in Hb as [Ho Hs].
        apply String.eqb_eq in Ho. right. now repeat split.
      * intros [Hl|(_ & Ho & Hs)]; [discriminate|].
        apply String.eqb_eq in Ho. now rewrite Ho, Hs.
    + unfold admitted. unfold_monad. rewrite tagged_isRN_pure, Ht. cbn.
      split; [discriminate|]. intros [Hl|(Hl & _)]; discriminate.
  - intros Htag Hsrc. apply handleMessage_not_admitted.
    destruct (fst (tagged_isRN (parse_data (ev_data e)) w)) as [[|]|r] eqn:Ht.
    + now contradiction Htag.
    + rewrite (admitted_remote w e u Hinj Hurl Ht), Hsrc, andb_false_r.
      discriminate.
    + unfold admitted. unfold_monad. rewrite tagged_isRN_pure, Ht. cbn.
      discriminate.
Qed.

(** X9. On an injected session an untagged message is admitted when its
    source is the page's own window. From any other source the test goes on
    to read the origin of a provider URL the session does not have: the
    handler throws a type error and the session is unchanged. *)
Theorem injected_admission (w : Wallet) (e : MessageEvent) (provider : nat) :
  _injectedProvider w = Some provider ->
  _providerUrl w = None ->
  fst (tagged_isRN (parse_data (ev_data e)) w) = Ret false ->
  (source_is_window (ev_source e) = true -> is_admitted e w)
  /\ (source_is_window (ev_source e) = false ->
      _handleMessage e w = (Thr RTypeError, w)).
Proof.
  intros Hinj Hurl Htag. split; intros Hsrc.
  - unfold is_admitted, admitted. unfold_monad.
    rewrite tagged_isRN_pure, Htag. cbn. rewrite Hinj, Hsrc. reflexivity.
  - unfold _handleMessage, admitted. unfold_monad.
    rewrite tagged_isRN_pure, Htag. cbn. rewrite Hinj, Hsrc, Hurl.
    reflexivity.
Qed.

(** X10. A text payload that does not parse as JSON never has any effect on
    the session, admitted or not; a text payload whose parse is not itself a
    text is handled exactly as the parsed value would be. *)
Theorem text_payloads (w : Wallet) (s origin : string) (source : Source) :
  (JSON_parse s = None ->
     snd (_handleMessage (mkMessageEvent (JStr s) origin source) w) = w)
  /\ (forall v,
        JSON_parse s = Some v ->
        js_typeof v <> "string" ->
        _handleMessage (mkMessageEvent (JStr s) origin source) w
        = _handleMessage (mkMessageEvent v origin source) w).
Proof.
  split.
  - intros Hs. unfold _handleMessage, admitted, tagged_isRN, on_response.
    unfold_monad. cbn. rewrite Hs. cbn.
    destruct (_injectedProvider w), source; cbn; try reflexivity;
      destruct (_providerUrl w); cbn; try reflexivity;
      destruct (_ && _); reflexivity.
  - intros v Hs Hv. unfold _handleMessage. cbn [ev_data parse_data].
    rewrite Hs.
    assert (Hparse : parse_data v = v)
      by (destruct v; try reflexivity; now contradiction Hv).
    rewrite Hparse. reflexivity.
Qed.

(** ** More of the class: what a request puts on the wire *)

Lemma alookup_aset (k k' : string) (v : JsVal) (m : list (string * JsVal)) :
  alookup String.eqb k (aset String.eqb k' v m)
  = if (k =? k')%string then Some v else alookup String.eqb k m.
Proof.
  induction m as [|[k0 v0] m IH]; cbn.
  - destruct (String.eqb_spec k k'); reflexivity.
  - destruct (String.eqb_spec k' k0) as [->|Hne]; cbn.
    + destruct (String.eqb_spec k k0); reflexivity.
    + rewrite IH. destruct (String.eqb_spec k k0) as [->|_]; [|reflexivity].
      destruct (String.eqb_spec k0 k'); [congruence|reflexivity].
Qed.

Lemma alookup_absent (k : string) (m : list (string * JsVal)) :
  ~ In k (map fst m) -> alookup String.eqb k m = None.
Proof.
  induction m as [|[k0 v0] m IH]; [reflexivity|]. cbn. intros Hnot.
  destruct (String.eqb_spec k k0) as [->|_]; [tauto|]. apply IH. tauto.
Qed.

(** [{ ...a, ...b }]: a property of [b] wins over one of [a]. *)
Lemma obj_spread_lookup (b : list (string * JsVal)) :
  forall (a : list (string * JsVal)) (k : string),
    NoDup (map fst b) ->
    alookup String.eqb k (obj_spread a b)
    = match alookup String.eqb k b with
      | Some v => Some v
      | None => alookup String.eqb k a
      end.
Proof.
  unfold obj_spread.
  induction b as [|[k0 v0] b IH]; intros a k Hnd; [reflexivity|].
  inversion Hnd as [|? ? Hnotin Hnd']; subst. cbn.
  rewrite (IH _ _ Hnd'), alookup_aset.
  destruct (String.eqb_spec k k0) as [->|_]; [|reflexivity].
  now rewrite (alookup_absent _ _ Hnotin).
Qed.

(** X11. An accepted request on an injected session posts exactly one
    message to the provider, under the current counter and with the given
    method. Its params hold every property of the request's params, and the
    session's network under [network] unless the request has a [network] of
    its own. *)
Theorem injected_request_carries_network (w : Wallet) (provider : nat)
    (method : string) (params : list (string * JsVal)) :
  _injectedProvider w = Some provider ->
  method = "connect" \/ connected w = true ->
  NoDup (map fst params) ->
  exists sent w',
    _sendRequest method params w = (Ret (nextPromise w), w')
    /\ log w' = (log w ++ [EvPostInjected provider
                             (mkRequest (_nextRequestId w) method
                                (JObj sent))])%list
    /\ forall k,
         alookup String.eqb k sent
         = match alookup String.eqb k params with
           | Some v => Some v
           | None => if (k =? "network")%string
                     then Some (JStr (_network w)) else None
           end.
Proof.
  intros Hinj Hok Hnd.
  exists (obj_spread [("network", JStr (_network w))] params).
  unfold _sendRequest. unfold_monad.
  assert (Hgo : negb (method =? "connect")%string && negb (connected w)
                = false).
  { destruct Hok as [-> | ->]; [reflexivity|apply andb_false_r]. }
  rewrite Hgo, Hinj. eexists. split; [reflexivity|]. split; [reflexivity|].
  intros k. rewrite (obj_spread_lookup _ _ _ Hnd). reflexivity.
Qed.

(** X12. An accepted request on a remote-window session with an open popup
    posts exactly one message, to that popup, with the raw params and with
    the origin of the provider URL as target origin; the popup is focused
    afterwards exactly when the auto-approve flag is unset. The request is
    stored under the id it was sent with. *)
Theorem popup_request (w : Wallet) (popup : nat) (u : URL)
    (method : string) (params : list (string * JsVal)) :
  _injectedProvider w = None ->
  _popup w = Some popup ->
  _providerUrl w = Some u ->
  method = "connect" \/ connected w = true ->
  exists w',
    _sendRequest method params w = (Ret (nextPromise w), w')
    /\ log w' = (log w
                 ++ EvPostPopup popup
                      (mkRequest (_nextRequestId w) method (JObj params))
                      (url_origin u)
                    :: (if _autoApprove w then []
                        else [EvPopupFocus popup]))%list
    /\ _responsePromises w'
       = aset Z.eqb (_nextRequestId w) (nextPromise w) (_responsePromises w).
Proof.
  intros Hinj Hpopup Hurl Hok.
  unfold _sendRequest. unfold_monad.
  assert (Hgo : negb (method =? "connect")%string && negb (connected w)
                = false).
  { destruct Hok as [-> | ->]; [reflexivity|apply andb_false_r]. }
  rewrite Hgo, Hinj, Hpopup, Hurl.
  destruct (_autoApprove w); cbn -[js_incr aset];
    (eexists; split; [reflexivity|]); cbn -[js_incr aset];
    rewrite <- ?app_assoc; split; reflexivity.
Qed.

(** X13. An accepted request on a session that has neither an injected
    provider nor a popup (no [connect()] yet, or [window.open] returned
    null) posts nothing: its promise is rejected at once with a type error.
    The request has used an id all the same, and its entry stays in the
    table. *)
Theorem request_without_popup (w : Wallet) (method : string)
    (params : list (string * JsVal)) :
  _injectedProvider w = None ->
  _popup w = None ->
  method = "connect" \/ connected w = true ->
  exists w',
    _sendRequest method params w = (Ret (nextPromise w), w')
    /\ log w' = (log w ++ [EvReject (nextPromise w) RTypeError])%list
    /\ _nextRequestId w' = js_incr (_nextRequestId w)
    /\ _responsePromises w'
       = aset Z.eqb (_nextRequestId w) (nextPromise w) (_responsePromises w).
Proof.
  intros Hinj Hpopup Hok.
  unfold _sendRequest. unfold_monad.
  assert (Hgo : negb (method =? "connect")%string && negb (connected w)
                = false).
  { destruct Hok as [-> | ->]; [reflexivity|apply andb_false_r]. }
  rewrite Hgo, Hinj, Hpopup.
  eexists. split; [reflexivity|]. repeat split.
Qed.

(** X14. [sign] checks its argument before anything else: data that is not
    a byte array is refused with the argument error, connected or not, and
    the session is unchanged. On a connected remote-window session with an
    open popup each of the three signing operations posts one message to
    the popup, under the current counter: [sign] with the data and the
    display flag, [signTransaction] with the encoded message,
    [signAllTransactions] with the encoded messages in the order given. On
    a disconnected session none of them changes anything. *)
Theorem signing_operations (w : Wallet) (data display : JsVal)
    (message : string) (messages : list string) :
  ((forall bytes, data <> JBytes bytes) ->
     sign data display w
     = (Thr (RError (JStr "Data must be an instance of Uint8Array")), w))
  /\ (forall popup u,
        _injectedProvider w = None ->
        _popup w = Some popup ->
        _providerUrl w = Some u ->
        connected w = true ->
        let posted method params :=
          (log w
           ++ EvPostPopup popup
                (mkRequest (_nextRequestId w) method (JObj params))
                (url_origin u)
              :: (if _autoApprove w then [] else [EvPopupFocus popup]))%list
        in
        (forall bytes,
            data = JBytes bytes ->
            log (snd (sign data display w))
            = posted "sign" [("data", data); ("display", display)])
        /\ log (snd (signTransaction message w))
           = posted "signTransaction" [("message", JStr message)]
        /\ log (snd (signAllTransactions messages w))
           = posted "signAllTransactions"
               [("messages", JArr (map JStr messages))])
  /\ (connected w = false ->
      forall bytes,
        snd (sign (JBytes bytes) display w) = w
        /\ snd (signTransaction message w) = w
        /\ snd (signAllTransactions messages w) = w).
Proof.
  split; [|split].
  - intros Hnot. destruct data; try reflexivity.
    now contradiction (Hnot bytes).
  - intros popup u Hinj Hpopup Hurl Hc. cbv zeta.
    unfold sign, signTransaction, signAllTransactions, _sendRequest.
    unfold_monad. split; [intros bytes ->|split];
      rewrite Hc, Hinj, Hpopup, Hurl;
      destruct (_autoApprove w); cbn -[js_incr aset];
      rewrite <- ?app_assoc; reflexivity.
  - intros Hc bytes. unfold sign, signTransaction, signAllTransactions,
      _sendRequest. unfold_monad. rewrite Hc. repeat split.
Qed.

(** ** More of the class: connect and disconnect *)

Lemma constructor_url (s network : string) (u : URL) (w0 : Wallet) :
  Wallet_constructor (ProvString s) network = Ret w0 ->
  URL_new s = Some u ->
  _injectedProvider w0 = None
  /\ _providerUrl w0
     = Some (mkURL (url_base u) (url_origin u) (url_path u) (url_query u)
               (Some ("origin=" ++ urlencode location_origin
                      ++ "&network=" ++ urlencode network))).
Proof.
  unfold Wallet_constructor. intros Hw Hu. rewrite Hu in Hw.
  rewrite params_toString, URL_set_hash_plain in Hw.
  - inversion Hw; subst. split; reflexivity.
  - reflexivity.
  - change (String "o" ("rigin=" ++ ?x)) with ("origin=" ++ x).
    rewrite !string_forallb_app, !urlencode_plain. reflexivity.
Qed.

(** X15. On a session built from a provider string, in any state its
    operations bring it to, [connect()] sends no request and uses no request
    id: after closing the old popup and installing the listener if needed,
    it names the window, opens the provider URL with the page origin and the
    network in its fragment, keeps what [window.open] returned as the popup
    (null included), and registers its promise for the next connect event. *)
Theorem connect_opens_provider_url (s network : string) (u : URL)
    (w0 : Wallet) (ops : list Op) (opened : option nat) :
  Wallet_constructor (ProvString s) network = Ret w0 ->
  URL_new s = Some u ->
  let w := run ops w0 in
  let w' := snd (connect opened w) in
  fst (connect opened w) = Ret (nextPromise w)
  /\ _popup w' = opened
  /\ _nextRequestId w' = _nextRequestId w
  /\ _responsePromises w' = _responsePromises w
  /\ exists before,
       filter is_post before = []
       /\ log w'
          = (log w ++ before
             ++ [EvSetWindowName "parent";
                 EvWindowOpen
                   (url_base u ++ url_path u
                    ++ match url_query u with
                       | Some q => "?" ++ q
                       | None => ""
                       end
                    ++ "#origin=" ++ urlencode location_origin
                    ++ "&network=" ++ urlencode network)
                   "_blank" "location,resizable,width=460,height=675";
                 EvOnceConnect (nextPromise w)])%list.
Proof.
  intros Hnew Hu. cbv zeta.
  destruct (constructor_url _ _ _ _ Hnew Hu) as [Hinj0 Hurl0].
  destruct (advances_run ops w0) as (_ & _ & Hinj & Hurl & _).
  rewrite Hinj0 in Hinj. rewrite Hurl0 in Hurl.
  generalize dependent (run ops w0). intros w Hinj Hurl.
  unfold connect, close_popup, _handleConnect, addEventListener.
  unfold_monad.
  destruct w as [inj url net pk aa popup added next table ls np lg].
  cbn in Hinj, Hurl. subst inj url.
  do 4 (split; [destruct popup, added; reflexivity|]).
  exists ((match popup with Some h => [EvPopupClose h] | None => [] end)
          ++ (if added then []
              else [EvAddListener (if isUIWebView then RWindow
                                   else RDocument) "message";
                    EvAddListener (if isUIWebView then RWindow
                                   else RDocument) "beforeunload"]))%list.
  destruct popup, added; cbn; rewrite <- ?app_assoc; split; reflexivity.
Qed.

(** X16. On an injected session [connect()] opens no window and leaves
    the popup and the identity alone: after installing the listener if
    needed it posts one [connect] request carrying the network, whether the
    session is connected or not, and resolves its own promise at once. The
    request's promise is a different one; it stays in the table. *)
Theorem connect_injected (w : Wallet) (provider : nat) (opened : option nat) :
  _injectedProvider w = Some provider ->
  let w' := snd (connect opened w) in
  fst (connect opened w) = Ret (nextPromise w)
  /\ _popup w' = _popup w
  /\ _publicKey w' = _publicKey w
  /\ _responsePromises w'
     = aset Z.eqb (_nextRequestId w) (S (nextPromise w)) (_responsePromises w)
  /\ exists before,
       filter is_post before = []
       /\ log w'
          = (log w ++ before
             ++ [EvPostInjected provider
                   (mkRequest (_nextRequestId w) "connect"
                      (JObj [("network", JStr (_network w))]));
                 EvResolve (nextPromise w) JUndefined])%list.
Proof.
  intros Hinj. cbv zeta.
  unfold connect, close_popup, _handleConnect, addEventListener,
    _sendRequest.
  unfold_monad.
  destruct w as [inj url net pk aa popup added next table ls np lg].
  cbn in Hinj. subst inj.
  do 4 (split; [destruct popup, added; reflexivity|]).
  exists ((match popup with Some h => [EvPopupClose h] | None => [] end)
          ++ (if added then []
              else [EvAddListener (if isUIWebView then RWindow
                                   else RDocument) "message";
                    EvAddListener (if isUIWebView then RWindow
                                   else RDocument) "beforeunload"]))%list.
  destruct popup, added; cbn -[js_incr aset]; rewrite <- ?app_assoc;
    split; reflexivity.
Qed.




(** ** More of the class: the log and the promises over a whole session *)

Lemma grows_refl (w : Wallet) : grows w w.
Proof.
  split; [exists []; now rewrite app_nil_r|]. split; [lia|tauto].
Qed.

Lemma grows_trans (w1 w2 w3 : Wallet) :
  grows w1 w2 -> grows w2 w3 -> grows w1 w3.
Proof.
  intros ([ev1 H1] & Hn1 & Hk1) ([ev2 H2] & Hn2 & Hk2).
  split; [|split; [lia|tauto]].
  exists (ev1 ++ ev2)%list. now rewrite H2, H1, app_assoc.
Qed.

Lemma grows_minor (w w' : Wallet) : minor w w' -> grows w w'.
Proof.
  intros (Ht & Hn & Hl). unfold grows, promises_ok.
  rewrite Ht, Hn. split; [exact Hl|]. split; [lia|tauto].
Qed.

Lemma growing_ret {A} (a : A) : growing (ret a).
Proof. intros w. apply grows_refl. Qed.

Lemma growing_throw {A} (r : Reason) : growing (@throw _ A r).
Proof. intros w. apply grows_refl. Qed.

Lemma growing_this : growing this.
Proof. intros w. apply grows_refl. Qed.

Lemma growing_lift {A} (r : Res A) : growing (lift r).
Proof. intros w. apply grows_refl. Qed.

Lemma growing_bind {A B} (c : M A) (k : A -> M B) :
  growing c -> (forall a, growing (k a)) -> growing (bind c k).
Proof.
  intros Hc Hk w. unfold bind. specialize (Hc w).
  destruct (c w) as [[a|r] w']; cbn in *; [|exact Hc].
  exact (grows_trans _ _ _ Hc (Hk a w')).
Qed.

Lemma growing_when (b : bool) (c : M unit) : growing c -> growing (when b c).
Proof. destruct b; [auto|]. intros _. apply growing_ret. Qed.

Lemma growing_unawaited {A} (c : M A) : growing c -> growing (unawaited c).
Proof. intros Hc w. exact (Hc w). Qed.

(** A field update that leaves table, promise counter and log alone. *)
Lemma growing_modify (f : Wallet -> Wallet) :
  (forall w, _responsePromises (f w) = _responsePromises w
             /\ nextPromise (f w) = nextPromise w
             /\ log (f w) = log w) ->
  growing (modify f).
Proof.
  intros Hf w. apply grows_minor. destruct (Hf w) as (Ht & Hn & Hl).
  repeat split; auto. exists []. cbn. now rewrite Hl, app_nil_r.
Qed.

Lemma growing_emit (e : Event) : growing (emit e).
Proof.
  intros w. apply grows_minor. repeat split. now exists [e].
Qed.

Lemma growing_new_promise : growing new_promise.
Proof.
  intros w. unfold grows, promises_ok. cbn.
  split; [exists []; now rewrite app_nil_r|]. split; [lia|].
  intros (Hlt & Hnd). split; [|exact Hnd].
  eapply Forall_impl; [|exact Hlt]. cbn. intros entry Hentry. lia.
Qed.

Lemma growing_handleDisconnect : growing _handleDisconnect.
Proof.
  intros w. rewrite handleDisconnect_spec. unfold grows, promises_ok. cbn.
  split; [eexists; reflexivity|]. split; [lia|].
  intros _. repeat constructor.
Qed.

Lemma aset_In (k : Z) (p : nat) (table : list (Z * nat)) (entry : Z * nat) :
  In entry (aset Z.eqb k p table) -> entry = (k, p) \/ In entry table.
Proof.
  induction table as [|[k' q] table IH]; cbn.
  - intros [<-|[]]. now left.
  - destruct (Z.eqb_spec k k') as [->|_]; cbn.
    + intros [<-|Hin]; [now left|right; now right].
    + intros [<-|Hin]; [right; now left|].
      destruct (IH Hin); [now left|right; now right].
Qed.

(** Storing a fresh promise keeps the table a map with distinct promises. *)
Lemma aset_fresh_promise (k : Z) (p : nat) (table : list (Z * nat)) :
  Forall (fun entry => (snd entry < p)%nat) table ->
  NoDup (map snd table) ->
  NoDup (map fst table) ->
  Forall (fun entry => (snd entry < S p)%nat) (aset Z.eqb k p table)
  /\ NoDup (map snd (aset Z.eqb k p table))
  /\ NoDup (map fst (aset Z.eqb k p table)).
Proof.
  induction table as [|[k' q] table IH]; intros Hlt Hs Hf.
  - cbn. repeat constructor; auto.
  - inversion Hlt as [|? ? Hq Hlt']; inversion Hs as [|? ? Hqs Hs'];
      inversion Hf as [|? ? Hkf Hf']; subst. cbn in *.
    destruct (Z.eqb_spec k k') as [->|Hne]; cbn.
    + split; [|split].
      * constructor; [cbn; lia|].
        eapply Forall_impl; [|exact Hlt']. cbn. intros entry He. lia.
      * constructor; [|exact Hs']. intros Hin.
        apply in_map_iff in Hin as ([k0 q0] & Heq & Hin). cbn in Heq. subst.
        rewrite Forall_forall in Hlt'. specialize (Hlt' _ Hin). cbn in Hlt'.
        lia.
      * now constructor.
    + destruct (IH Hlt' Hs' Hf') as (IH1 & IH2 & IH3).
      split; [|split].
      * constructor; [cbn; lia|exact IH1].
      * constructor; [|exact IH2]. intros Hin.
        apply in_map_iff in Hin as ([k0 q0] & Heq & Hin). cbn in Heq. subst.
        destruct (aset_In _ _ _ _ Hin) as [[= -> ->]|Hin']; [lia|].
        apply Hqs. change q with (snd (k0, q)). now apply in_map.
      * constructor; [|exact IH3]. intros Hin.
        apply in_map_iff in Hin as ([k0 q0] & Heq & Hin). cbn in Heq. subst.
        destruct (aset_In _ _ _ _ Hin) as [[= -> ->]|Hin']; [congruence|].
        apply Hkf. change k' with (fst (k', q0)). now apply in_map.
Qed.

Lemma growing_sendRequest (method : string) (params : list (string * JsVal)) :
  growing (_sendRequest method params).
Proof.
  intros w.
  destruct (sendRequest_spec method params w) as [[_ ->] | [events [-> _]]];
    [apply grows_refl|].
  unfold grows, promises_ok. cbn.
  split; [now exists events|]. split; [lia|].
  intros (Hlt & Hs & Hf). now apply aset_fresh_promise.
Qed.

Ltac growing_step :=
  lazymatch goal with
  | |- growing (ret _) => apply growing_ret
  | |- growing (throw _) => apply growing_throw
  | |- growing this => apply growing_this
  | |- growing (lift _) => apply growing_lift
  | |- growing (emit _) => apply growing_emit
  | |- growing new_promise => apply growing_new_promise
  | |- growing (_sendRequest _ _) => apply growing_sendRequest
  | |- growing _handleDisconnect => apply growing_handleDisconnect
  | |- growing (unawaited _) => apply growing_unawaited
  | |- growing (when _ _) => apply growing_when
  | |- growing (bind _ _) => apply growing_bind; [|intros ?]
  | |- growing (modify _) =>
      apply growing_modify; intros ?; now repeat split
  | |- growing (match ?x with _ => _ end) => destruct x
  end.

Lemma growing_connect (opened : option nat) : growing (connect opened).
Proof.
  unfold connect, close_popup, _handleConnect, addEventListener.
  repeat growing_step.
Qed.

Lemma growing_sign (data display : JsVal) : growing (sign data display).
Proof. unfold sign. repeat growing_step. Qed.

Lemma growing_handleMessage (e : MessageEvent) : growing (_handleMessage e).
Proof.
  unfold _handleMessage.
  apply growing_bind;
    [intros w; rewrite admitted_pure; apply grows_refl|].
  intros ok. unfold on_connected, on_response. repeat growing_step.
Qed.

Lemma growing_teardown : growing disconnect_teardown.
Proof. unfold disconnect_teardown, close_popup. repeat growing_step. Qed.

Lemma grows_step (op : Op) (w : Wallet) : grows w (step op w).
Proof.
  destruct op as [opened| |p|e|method params|data display]; cbn [step].
  - apply growing_connect.
  - unfold disconnect. destruct (_injectedProvider w).
    + pose proof (growing_sendRequest "disconnect" [] w) as Hs.
      destruct (_sendRequest "disconnect" [] w) as [[p|r] w']; exact Hs.
    + apply growing_teardown.
  - unfold disconnect_resume.
    destruct (settlement p (log w)) as [[v|r]|]; try apply grows_refl.
    apply growing_teardown.
  - apply growing_handleMessage.
  - apply growing_sendRequest.
  - apply growing_sign.
Qed.

Lemma grows_run (ops : list Op) : forall w, grows w (run ops w).
Proof.
  induction ops as [|op ops IH]; intros w; [apply grows_refl|].
  cbn. eapply grows_trans; [apply grows_step|apply IH].
Qed.

Lemma reachable_promises_ok (provider : Provider) (network : string)
    (w0 : Wallet) (ops : list Op) :
  Wallet_constructor provider network = Ret w0 ->
  promises_ok (run ops w0).
Proof.
  intros Hnew. destruct (grows_run ops w0) as (_ & _ & Hkeep). apply Hkeep.
  destruct (constructor_ids_ok _ _ _ Hnew) as (_ & _ & Hempty).
  unfold promises_ok. rewrite Hempty. repeat constructor.
Qed.

(** X19. In every state a session can reach from its constructor, the
    table of pending requests holds each request id at most once, every
    promise in it has been created, and no two entries share a promise: two
    lookups that find the same promise were made with the same id. *)
Theorem pending_promises_distinct (provider : Provider) (network : string)
    (w0 : Wallet) (ops : list Op) :
  Wallet_constructor provider network = Ret w0 ->
  promises_ok (run ops w0)
  /\ forall id1 id2 p,
       pending_lookup id1 (run ops w0) = Some p ->
       pending_lookup id2 (run ops w0) = Some p ->
       id1 = id2.
Proof.
  intros Hnew.
  pose proof (reachable_promises_ok _ _ _ ops Hnew) as Hok.
  split; [exact Hok|].
  intros id1 id2 p H1 H2. destruct Hok as (_ & Hnd & _).
  destruct id1; try discriminate. destruct id2; try discriminate.
  cbn in H1, H2. f_equal.
  exact (NoDup_snd_injective _ _ _ _ Hnd (alookup_In _ _ _ H1)
           (alookup_In _ _ _ H2)).
Qed.


(** ** More of the class: the constructor *)

Lemma urldecode_byte (c : ascii) (r : string) :
  urldecode (urlencode_byte c ++ r) = String c (urldecode r).
Proof. destruct c as [[] [] [] [] [] [] [] []]; reflexivity. Qed.

Lemma urldecode_urlencode (s : string) : urldecode (urlencode s) = s.
Proof.
  induction s as [|c s IH]; [reflexivity|].
  cbn [urlencode]. now rewrite urldecode_byte, IH.
Qed.

Lemma string_mem_app (c : ascii) (s t : string) :
  string_mem c (s ++ t) = string_mem c s || string_mem c t.
Proof.
  induction s as [|c' s IH]; [reflexivity|].
  cbn. now rewrite IH, orb_assoc.
Qed.

Lemma urlencode_byte_no_separator (c : ascii) :
  string_mem "&" (urlencode_byte c) = false
  /\ string_mem "=" (urlencode_byte c) = false
  /\ string_mem "#" (urlencode_byte c) = false.
Proof. destruct c as [[] [] [] [] [] [] [] []]; repeat split. Qed.

Lemma urlencode_no_separator (s : string) :
  string_mem "&" (urlencode s) = false
  /\ string_mem "=" (urlencode s) = false
  /\ string_mem "#" (urlencode s) = false.
Proof.
  induction s as [|c s (IH1 & IH2 & IH3)]; [now repeat split|].
  cbn [urlencode]. rewrite !string_mem_app, IH1, IH2, IH3.
  destruct (urlencode_byte_no_separator c) as (H1 & H2 & H3).
  now rewrite H1, H2, H3.
Qed.

(** X21. The fragment the constructor gives the provider URL is
    [origin=] and [&network=] around two encoded texts that contain no
    [&], [=] or [#] and that decode to the page origin and to the network:
    the counterpart that opens the URL can read both back, whatever bytes
    they hold. *)
Theorem connection_url_round_trip (s network : string) (u : URL)
    (w0 : Wallet) :
  Wallet_constructor (ProvString s) network = Ret w0 ->
  URL_new s = Some u ->
  exists u' eo en,
    _providerUrl w0 = Some u'
    /\ url_fragment u' = Some ("origin=" ++ eo ++ "&network=" ++ en)
    /\ urldecode eo = location_origin
    /\ urldecode en = network
    /\ (forall c, In c ["&"; "="; "#"]%char ->
                  string_mem c eo = false /\ string_mem c en = false).
Proof.
  intros Hnew Hu. destruct (constructor_url _ _ _ _ Hnew Hu) as [_ Hurl].
  eexists. exists (urlencode location_origin), (urlencode network).
  split; [exact Hurl|]. split; [reflexivity|].
  split; [apply urldecode_urlencode|]. split; [apply urldecode_urlencode|].
  destruct (urlencode_no_separator location_origin) as (Ho1 & Ho2 & Ho3).
  destruct (urlencode_no_separator network) as (Hn1 & Hn2 & Hn3).
  intros c [<-|[<-|[<-|[]]]]; now split.
Qed.



End Properties.

(** * The claims on the concrete page *)

#[local] Existing Instance demo_platform.

(** C1 fails as stated: on the remote session, a message from a foreign
    origin and a foreign window that is tagged [isRN] replaces the identity,
    and another one settles the pending request. *)
Lemma C1_counterexample :
  _providerUrl demo_remote_signing = Some demo_url
  /\ ev_origin foreign_connected <> url_origin demo_url
  /\ ev_origin foreign_reply <> url_origin demo_url
  /\ _publicKey demo_remote_signing = Some "alice"
  /\ _publicKey (snd (_handleMessage foreign_connected demo_remote_signing))
     = Some "mallory"
  /\ settlement 1 (log demo_remote_signing) = None
  /\ settlement 1 (log (snd (_handleMessage foreign_reply demo_remote_signing)))
     = Some (Ret (JStr "forged")).
Proof.
  repeat apply conj; try (vm_compute; reflexivity);
    intros Heq; vm_compute in Heq; discriminate Heq.
Qed.

(** The untagged copy of the foreign notification is dropped. *)
Lemma C1_witness :
  snd (_handleMessage foreign_untagged demo_remote_signing)
  = demo_remote_signing.
Proof.
  refine (proj2 (C1_untagged_foreign_origin_dropped
                   "https://www.sollet.io" "mainnet-beta" demo_remote
                   demo_url demo_remote_history foreign_untagged
                   _ _ _ _)).
  - vm_compute. reflexivity.
  - vm_compute. reflexivity.
  - intros Heq. vm_compute in Heq. discriminate Heq.
  - intros Heq. vm_compute in Heq. discriminate Heq.
Defined.

(** C2 fails on the code: after the reply to request 1 has been delivered,
    the entry for id 1 is still in the table, and a second delivery of the
    same reply finds it and calls [resolve] again. *)
Theorem C2_settled_entry_stays :
  let w1 := snd (_handleMessage demo_reply demo_remote_signing) in
  let w2 := snd (_handleMessage demo_reply w1) in
  _responsePromises demo_remote_signing = [(1, 1%nat)]
  /\ log w1 = (log demo_remote_signing ++ [EvResolve 1 sign_result])%list
  /\ _responsePromises w1 = [(1, 1%nat)]
  /\ log w2 = (log demo_remote_signing
               ++ [EvResolve 1 sign_result; EvResolve 1 sign_result])%list
  /\ _responsePromises w2 = [(1, 1%nat)].
Proof. cbv zeta. repeat apply conj; vm_compute; reflexivity. Qed.

(** C3 fails as stated: on the connected injected session, [disconnect()]
    stops at the [await] with the session still connected; an error reply
    to the [disconnect] request makes the call fail, and the session stays
    connected, its listener installed, its pending request unrejected. *)
Lemma C3_counterexample :
  let w1 := snd (disconnect demo_injected_connected) in
  let w2 := snd (_handleMessage provider_refuses w1) in
  fst (disconnect demo_injected_connected) = Awaiting 2
  /\ _publicKey w1 = Some "alice"
  /\ disconnect_resume 2 w1 = (Awaiting 2, w1)
  /\ disconnect_resume 2 w2 = (Rejected (RError (JStr "denied")), w2)
  /\ _publicKey w2 <> None
  /\ _handlerAdded w2 = true
  /\ settlement 1 (log w2) = None
  /\ _responsePromises w2 <> [].
Proof.
  cbv zeta. repeat apply conj; try (vm_compute; reflexivity);
    intros Heq; vm_compute in Heq; discriminate Heq.
Qed.

(** The connected injected session is suspended at the [await]; the fresh
    one is refused. *)
Lemma C3_witness :
  (exists w1,
     disconnect demo_injected_connected = (Awaiting 2, w1)
     /\ _publicKey w1 = Some "alice")
  /\ disconnect demo_injected
     = (Rejected (RError (JStr "Wallet not connected")), demo_injected).
Proof.
  destruct (C3_disconnect_waits_for_reply demo_injected_connected 7 eq_refl)
    as (_ & Hconnected & _).
  destruct (C3_disconnect_waits_for_reply demo_injected 7 eq_refl)
    as (Hnot & _ & _).
  split.
  - destruct (Hconnected eq_refl) as (w1 & Hd & _ & Hpk & _).
    exists w1. split; [exact Hd|exact Hpk].
  - exact (Hnot eq_refl).
Defined.

(** C4 fails as stated: on a page where the listener goes on [window], the
    connected remote session has its listener installed; an admitted
    [disconnected] notification, a plain Connected-to-Disconnected
    transition, removes it and clears the flag. *)
Lemma C4_counterexample :
  let w := snd (_handleMessage popup_disconnected demo_remote_connected) in
  connected demo_remote_connected = true
  /\ has_listener RWindow "message" (listeners demo_remote_connected) = true
  /\ connected w = false
  /\ has_listener RWindow "message" (listeners w) = false
  /\ has_listener RDocument "message" (listeners w) = false
  /\ _handlerAdded w = false.
Proof. cbv zeta. repeat apply conj; vm_compute; reflexivity. Qed.

(** The first [connect()] of the remote session sets the flag; the
    disconnect handler clears it and removes the [window] listener. *)
Lemma C4_witness :
  _handlerAdded (snd (connect (Some 3%nat) demo_remote)) = true
  /\ _handlerAdded (snd (_handleDisconnect demo_remote_connected)) = false
  /\ has_listener RWindow "message"
       (listeners (snd (_handleDisconnect demo_remote_connected))) = false.
Proof.
  destruct (C4_listener_follows_handler_flag demo_remote (Some 3%nat))
    as (_ & _ & Hfirst & _).
  destruct (C4_listener_follows_handler_flag demo_remote_connected None)
    as (_ & _ & _ & _ & Hclear & Hremove & _).
  split; [exact (proj1 (Hfirst eq_refl))|].
  split; [exact Hclear|exact (proj1 (Hremove eq_refl))].
Defined.

(** C5 fails as stated: the URL the session is built with has no query
    component at all; the two parameters are in its fragment. *)
Lemma C5_counterexample :
  @Wallet_constructor demo_platform (ProvString "https://www.sollet.io")
    "mainnet-beta" = Ret demo_remote
  /\ _providerUrl demo_remote = Some demo_url
  /\ url_query demo_url = None
  /\ ~ carries_in_query demo_url "https://app.example.org" "mainnet-beta".
Proof.
  repeat split.
  intros (q & pre & Hq & _). discriminate Hq.
Qed.

(** The URL built for the concrete provider string. *)
Lemma C5_witness :
  exists w u',
    @Wallet_constructor demo_platform (ProvString "https://www.sollet.io")
      "mainnet-beta" = Ret w
    /\ _providerUrl w = Some u'
    /\ url_query u' = None
    /\ URL_toString u'
       = "https://www.sollet.io/#origin=https%3A%2F%2Fapp.example.org&network=mainnet-beta".
Proof.
  destruct (@C5_parameters_in_fragment demo_platform
              "https://www.sollet.io" "mainnet-beta"
              (mkURL "https://www.sollet.io" "https://www.sollet.io" "/"
                     None None) eq_refl)
    as (w & u' & Hw & Hu & Hq & _ & _ & Hs).
  exists w, u'. repeat split; assumption.
Defined.

(** Before any [connect()], a transaction or signing request is refused
    and the session is untouched. *)
Lemma C6_witness :
  _sendRequest "signTransaction" [("message", JStr "3Bxs")] demo_remote
  = (Thr (RError (JStr "Wallet not connected")), demo_remote)
  /\ sign (JBytes [1; 2; 3]) (JBool true) demo_remote
     = (Thr (RError (JStr "Wallet not connected")), demo_remote).
Proof.
  apply (C6_not_connected_fails_fast demo_remote "signTransaction").
  - intros Heq. discriminate Heq.
  - reflexivity.
Defined.

(** The injected provider's notification for a non-empty key is admitted
    and decodes to that key. *)
Lemma demo_notification (key : string) :
  key <> "" ->
  @connected_notification demo_platform (provider_connected key) key
    demo_injected_connected.
Proof.
  intros Hkey. split; [reflexivity|]. split; [reflexivity|].
  exists (JObj [("publicKey", JStr key); ("autoApprove", JBool true)]).
  exists (JStr key). repeat split.
  cbn. apply String.eqb_neq in Hkey. now rewrite Hkey.
Defined.

(** Connected as alice, told that bob is connected. *)
Lemma C7_witness :
  let w2 := snd (_handleMessage (provider_connected "bob")
                   demo_injected_connected) in
  _publicKey w2 = Some "bob"
  /\ emitted (log w2)
     = [EvEmitConnect "alice"; EvEmitDisconnect; EvEmitConnect "bob"].
Proof.
  assert (Hbob : "bob" <> "") by (intros Heq; discriminate Heq).
  destruct (@C7_identity_change demo_platform demo_injected_connected
              (provider_connected "bob") "alice" "bob"
              eq_refl (demo_notification "bob" Hbob) eq_refl)
    as (_ & _ & _ & Hpk & Hev).
  split; [exact Hpk|exact Hev].
Defined.

(** Connected as alice, told twice that alice is connected. *)
Lemma C8_witness :
  deliver [provider_connected "alice"; provider_connected "alice"]
    demo_injected_connected = demo_injected_connected.
Proof.
  assert (Halice : "alice" <> "") by (intros Heq; discriminate Heq).
  apply (@C8_same_identity_idempotent demo_platform
           demo_injected_connected "alice").
  - reflexivity.
  - repeat constructor;
      (exists "alice"; split;
       [exact (demo_notification "alice" Halice)|reflexivity]).
Defined.

(** The fresh injected session has counter 1 and an empty table. *)
Lemma demo_ids_ok : ids_ok demo_injected.
Proof. split; [cbn; unfold MAX_EXACT; lia|constructor]. Defined.

(** C9 fails as stated: after [2^53 - 1] connect requests the counter is
    [2^53]; the next request is given that id and leaves the counter where
    it is, so the request after it is given the same id again. *)
Lemma C9_counterexample :
  let w := N.iter 9007199254740991 send_connect demo_injected in
  _nextRequestId w = 9007199254740992
  /\ _nextRequestId (send_connect w) = _nextRequestId w
  /\ _nextRequestId (send_connect w) <> _nextRequestId w + 1.
Proof.
  pose proof (counter_after_sends 9007199254740991 demo_injected
                (proj1 demo_ids_ok)) as Hw.
  pose proof (counter_after_sends 9007199254740992 demo_injected
                (proj1 demo_ids_ok)) as Hw1.
  change 9007199254740992%N with (N.succ 9007199254740991) in Hw1.
  rewrite N.iter_succ in Hw1.
  cbv zeta. rewrite Hw1, Hw. repeat split. discriminate.
Qed.

(** The first three facts of the counter on the injected session. *)
Lemma C9_witness :
  _nextRequestId demo_injected = 1
  /\ 1 <= _nextRequestId demo_injected_connected
  /\ _nextRequestId (snd (_sendRequest "connect" [] demo_injected)) = 2.
Proof.
  destruct (C9_request_ids demo_injected demo_ids_ok)
    as (Hnew & Hrun & Hsend).
  split; [|split].
  - exact (proj1 (Hnew (ProvObject 7 true) "mainnet-beta" demo_injected
                    eq_refl)).
  - exact (proj1 (Hrun [OpConnect None;
                        OpMessage (provider_connected "alice")])).
  - destruct (Hsend "connect" [] _ _ eq_refl) as (_ & _ & Hnext & _ & _).
    + unfold MAX_EXACT. cbn. lia.
    + exact Hnext.
Defined.

(** The popup's reply is an admitted response with id 1 and no error. *)
Lemma demo_response :
  response_message demo_reply (JNum 1) sign_result JUndefined
    demo_remote_signing.
Proof.
  split; [reflexivity|]. split; [|repeat split].
  exists JUndefined. repeat split.
Defined.

(** The reply with a truthy result resolves promise 1. *)
Lemma C10_witness :
  snd (_handleMessage demo_reply demo_remote_signing)
  = set_log (log demo_remote_signing ++ [EvResolve 1 sign_result])
      demo_remote_signing.
Proof.
  exact (C10_truthiness_dispatch demo_remote_signing demo_reply
           (JNum 1) sign_result JUndefined 1 demo_response eq_refl).
Defined.

(** * More of the class on the concrete page *)

(** The pending [sign] request of the remote session is rejected by the
    disconnect handler. *)
Lemma handleDisconnect_settles_pending_witness :
  settlement 1 (log (snd (_handleDisconnect demo_remote_signing)))
  = Some (Thr (RString "Wallet disconnected")).
Proof.
  apply (handleDisconnect_settles_pending demo_remote_signing 1 1%nat).
  - vm_compute. left. reflexivity.
  - vm_compute. reflexivity.
Defined.

(** A notification of the injected provider is admitted in every state of
    the injected session that keeps its provider. *)
Lemma demo_notification_at (w : @Wallet demo_platform) (key : string) :
  _injectedProvider w <> None ->
  key <> "" ->
  @connected_notification demo_platform (provider_connected key) key w.
Proof.
  intros Hinj Hkey. split; [|split; [reflexivity|]].
  - unfold is_admitted, admitted, bind, this, tagged_isRN, lift, ret.
    cbn. destruct (_injectedProvider w); [reflexivity|now contradiction Hinj].
  - exists (JObj [("publicKey", JStr key); ("autoApprove", JBool true)]).
    exists (JStr key). repeat split.
    cbn. apply String.eqb_neq in Hkey. now rewrite Hkey.
Defined.

(** The first notification connects the injected session as alice. *)
Lemma first_connected_notification_witness :
  _publicKey (snd (_handleMessage (provider_connected "alice")
                     demo_injected_connecting)) = Some "alice".
Proof.
  assert (Hinj : _injectedProvider demo_injected_connecting <> None)
    by (vm_compute; discriminate).
  assert (Halice : "alice" <> "") by (intros Heq; discriminate Heq).
  destruct (@first_connected_notification demo_platform
              demo_injected_connecting (provider_connected "alice") "alice"
              eq_refl (demo_notification_at _ _ Hinj Halice))
    as (params & flag & _ & _ & Heq).
  rewrite Heq. reflexivity.
Defined.

(** A notification without params throws and changes nothing. *)
Lemma malformed_connected_notification_witness :
  exists r,
    _handleMessage provider_connected_bare demo_injected_connecting
    = (Thr r, demo_injected_connecting).
Proof.
  apply malformed_connected_notification.
  - vm_compute. reflexivity.
  - vm_compute. reflexivity.
  - intros params key Hp Hk. vm_compute in Hp. inversion Hp; subst.
    discriminate Hk.
Defined.

(** The reply to request 1 reaches a session that holds no request. *)
Lemma stale_response_discarded_witness :
  _handleMessage demo_reply demo_remote_connected
  = (Ret tt, demo_remote_connected).
Proof.
  apply (stale_response_discarded demo_remote_connected demo_reply
           (JNum 1) sign_result JUndefined).
  - split; [vm_compute; reflexivity|]. split; [|repeat split].
    exists JUndefined. repeat split.
  - vm_compute. reflexivity.
Defined.

(** The reply to request 1 and the refusal of request 2, in both orders. *)
Lemma responses_commute_witness :
  settlement 2 (log (deliver [demo_reply; demo_refusal] demo_remote_two))
  = settlement 2 (log (deliver [demo_refusal; demo_reply] demo_remote_two)).
Proof.
  apply (responses_commute demo_remote_two demo_reply demo_refusal 1 2
           sign_result JUndefined JUndefined (JStr "denied") 1 2).
  - apply (reachable_promises_ok (ProvString "https://www.sollet.io")
             "mainnet-beta" demo_remote demo_remote_two_history).
    vm_compute. reflexivity.
  - split; [vm_compute; reflexivity|]. split; [|repeat split].
    exists JUndefined. repeat split.
  - split; [vm_compute; reflexivity|]. split; [|repeat split].
    exists JUndefined. repeat split.
  - vm_compute. reflexivity.
  - vm_compute. reflexivity.
  - intros Heq. discriminate Heq.
Defined.

(** A notification from the provider's origin but from another window is
    dropped by the remote session. *)
Lemma remote_admission_witness :
  snd (_handleMessage other_window_connected demo_remote_signing)
  = demo_remote_signing.
Proof.
  refine (proj2 (remote_admission demo_remote_signing other_window_connected
                   demo_url _ _) _ _).
  - vm_compute. reflexivity.
  - vm_compute. reflexivity.
  - intros Heq. vm_compute in Heq. discriminate Heq.
  - vm_compute. reflexivity.
Defined.

(** A message from another window makes the handler of the injected
    session throw. *)
Lemma injected_admission_witness :
  _handleMessage foreign_untagged demo_injected_connected
  = (Thr RTypeError, demo_injected_connected).
Proof.
  refine (proj2 (injected_admission demo_injected_connected foreign_untagged
                   7 _ _ _) _); vm_compute; reflexivity.
Defined.

(** Text that does not parse is ignored; text that parses to an object is
    handled as that object. *)
Lemma text_payloads_witness :
  snd (_handleMessage
         (mkMessageEvent (JStr "connected") "https://www.sollet.io" (SrcRef 3))
         demo_remote_signing) = demo_remote_signing
  /\ _handleMessage
       (mkMessageEvent (JStr "{}") "https://app.example.org" SrcWindow)
       (@fresh_wallet demo_platform_json (Some 7%nat) None "mainnet-beta")
     = _handleMessage
         (mkMessageEvent (JObj []) "https://app.example.org" SrcWindow)
         (@fresh_wallet demo_platform_json (Some 7%nat) None "mainnet-beta").
Proof.
  split.
  - refine (proj1 (@text_payloads demo_platform demo_remote_signing
                     "connected" "https://www.sollet.io" (SrcRef 3)) _).
    reflexivity.
  - refine (proj2 (@text_payloads demo_platform_json _
                     "{}" "https://app.example.org" SrcWindow)
              (JObj []) _ _).
    + reflexivity.
    + intros Heq. discriminate Heq.
Defined.

(** A [sign] request on the connected injected session is accepted. *)
Lemma injected_request_carries_network_witness :
  fst (_sendRequest "sign"
         [("data", JBytes [1; 2; 3]); ("display", JBool true)]
         demo_injected_connected)
  = Ret (nextPromise demo_injected_connected).
Proof.
  destruct (injected_request_carries_network demo_injected_connected 7
              "sign" [("data", JBytes [1; 2; 3]); ("display", JBool true)])
    as (sent & w' & Heq & _).
  - vm_compute. reflexivity.
  - right. vm_compute. reflexivity.
  - repeat constructor; cbn; intuition discriminate.
  - rewrite Heq. reflexivity.
Defined.

(** A [signTransaction] request on the connected remote session goes to
    popup 3, addressed to the provider's origin. *)
Lemma popup_request_witness :
  exists w',
    _sendRequest "signTransaction" [("message", JStr "3Bxs4Th")]
      demo_remote_connected
    = (Ret (nextPromise demo_remote_connected), w').
Proof.
  destruct (popup_request demo_remote_connected 3 demo_url
              "signTransaction" [("message", JStr "3Bxs4Th")])
    as (w' & Heq & _).
  - vm_compute. reflexivity.
  - vm_compute. reflexivity.
  - vm_compute. reflexivity.
  - right. vm_compute. reflexivity.
  - exists w'. exact Heq.
Defined.

(** A [connect] request on the remote session that has no popup yet. *)
Lemma request_without_popup_witness :
  exists w',
    _sendRequest "connect" [] demo_remote = (Ret 0%nat, w')
    /\ log w' = [EvReject 0 RTypeError].
Proof.
  destruct (request_without_popup demo_remote "connect" [])
    as (w' & Heq & Hlog & _).
  - vm_compute. reflexivity.
  - vm_compute. reflexivity.
  - left. reflexivity.
  - exists w'. split; [exact Heq|exact Hlog].
Defined.

(** Text is not a byte array, connected or not; the connected remote
    session sends the byte array to its popup; the fresh one does not. *)
Lemma signing_operations_witness :
  sign (JStr "hello") (JBool true) demo_remote
  = (Thr (RError (JStr "Data must be an instance of Uint8Array")), demo_remote)
  /\ List.length (log (snd (sign (JBytes [1; 2; 3]) (JBool true)
                              demo_remote_connected)))
     = S (List.length (log demo_remote_connected))
  /\ snd (signAllTransactions ["3Bxs4Th"; "9kZp"] demo_remote) = demo_remote.
Proof.
  split; [|split].
  - refine (proj1 (signing_operations demo_remote (JStr "hello") (JBool true)
                     "3Bxs4Th" ["3Bxs4Th"; "9kZp"]) _).
    intros bytes Heq. discriminate Heq.
  - destruct (signing_operations demo_remote_connected (JBytes [1; 2; 3])
                (JBool true) "3Bxs4Th" ["3Bxs4Th"; "9kZp"])
      as (_ & Hposted & _).
    destruct (Hposted 3%nat demo_url) as (Hsign & _);
      [vm_compute; reflexivity | vm_compute; reflexivity
      | vm_compute; reflexivity | vm_compute; reflexivity | ].
    rewrite (Hsign [1; 2; 3] eq_refl). vm_compute. reflexivity.
  - destruct (signing_operations demo_remote (JBytes [1; 2; 3]) (JBool true)
                "3Bxs4Th" ["3Bxs4Th"; "9kZp"])
      as (_ & _ & Hnot).
    destruct (Hnot eq_refl [1; 2; 3]) as (_ & _ & Hall). exact Hall.
Defined.

(** The first [connect()] of the remote session. *)
Lemma connect_opens_provider_url_witness :
  _popup (snd (connect (Some 3%nat) demo_remote)) = Some 3%nat
  /\ _nextRequestId (snd (connect (Some 3%nat) demo_remote)) = 1.
Proof.
  destruct (@connect_opens_provider_url demo_platform
              "https://www.sollet.io" "mainnet-beta" demo_sollet demo_remote
              [] (Some 3%nat))
    as (_ & Hpopup & Hid & _).
  - vm_compute. reflexivity.
  - vm_compute. reflexivity.
  - split; [exact Hpopup|exact Hid].
Defined.

(** The first [connect()] of the injected session. *)
Lemma connect_injected_witness :
  fst (connect None demo_injected) = Ret 0%nat
  /\ _responsePromises (snd (connect None demo_injected)) = [(1, 1%nat)].
Proof.
  destruct (connect_injected demo_injected 7 None)
    as (Hret & _ & _ & Htable & _).
  - vm_compute. reflexivity.
  - split; [exact Hret|exact Htable].
Defined.



(** The table of the remote session with two requests in flight. *)
Lemma pending_promises_distinct_witness : promises_ok demo_remote_two.
Proof.
  refine (proj1 (pending_promises_distinct
                   (ProvString "https://www.sollet.io") "mainnet-beta"
                   demo_remote demo_remote_two_history _)).
  vm_compute. reflexivity.
Defined.


(** The fragment built for the concrete page decodes to its origin and to
    the network. *)
Lemma connection_url_round_trip_witness :
  exists eo en,
    url_fragment demo_url = Some ("origin=" ++ eo ++ "&network=" ++ en)
    /\ urldecode eo = "https://app.example.org"
    /\ urldecode en = "mainnet-beta".
Proof.
  destruct (@connection_url_round_trip demo_platform
              "https://www.sollet.io" "mainnet-beta" demo_sollet demo_remote)
    as (u' & eo & en & Hu & Hfrag & Ho & Hn & _).
  - vm_compute. reflexivity.
  - vm_compute. reflexivity.
  - exists eo, en.
    assert (Hu' : u' = demo_url)
      by (vm_compute in Hu; inversion Hu; reflexivity).
    subst u'. repeat split; assumption.
Defined.
